(** * NewHope key exchange: the orchestration layer of crypto/newhope/newhope.c

    A shallow embedding of [encode_rec], [decode_rec], [NEWHOPE_offer],
    [NEWHOPE_accept], [NEWHOPE_finish], [NEWHOPE_accept_computation] and
    [NEWHOPE_finish_computation], and the properties of the handshake that
    follow from that file alone.

    Conventions.
    - A [uint8_t] is a [Z] in [0, 256), a [uint16_t] a [Z] in [0, 65536); a
      store into one of them is written with its truncation.
    - A C buffer is the list of its bytes.  Passing [&buf[off]] to a callee is
      passing the suffix of the buffer that starts at [off]; what the callee
      writes through that pointer is put back at the same offset.
    - The process-wide random byte source is a state that is threaded through
      every entry point (the monad [M]).
    - The ring arithmetic, the sampler, the ring element codec, the
      reconciliation functions and the hash live in other files; they are the
      variables of [Section Orchestrator]. *)

From stdpp Require Import base list numbers.
From Stdlib Require Import ZArith Lia ZifyNat.

Local Open Scope Z_scope.

(** ** Constants *)

(** Modelled from the spec: the constants of internal.h and newhope.h, which
    are not part of the sources at hand.  The spec fixes N = 1024, a packed
    ring element of ceil(N*14/8) bytes, a 32-byte seed, a 32-byte raw secret
    and a 32-byte digest, and message lengths 1824 and 2048. *)
Definition PARAM_N : nat := 1024.
Definition NEWHOPE_POLY_LENGTH : nat := 1792.
Definition SEED_LENGTH : nat := 32.
Definition NEWHOPE_OFFERMSG_LENGTH : nat := 1824.
Definition NEWHOPE_ACCEPTMSG_LENGTH : nat := 2048.
Definition NEWHOPE_KEY_LENGTH : nat := 32.
Definition SHA256_DIGEST_LENGTH : nat := 32.

(** ** Machine integers and buffers *)

Definition uint8 (z : Z) : Z := z mod 256.
Definition uint16 (z : Z) : Z := z mod 65536.

Definition is_uint8 (z : Z) : Prop := 0 <= z < 256.
Definition is_bytes (l : list Z) : Prop := Forall is_uint8 l.

(** [is_bytes] as a check that runs. *)
Definition bytes_ok (l : list Z) : bool :=
  forallb (fun z => (0 <=? z) && (z <? 256)) l.

(** Modelled from the spec: [struct newhope_poly_st] of internal.h, an array
    of [PARAM_N] coefficients. *)
Record NEWHOPE_POLY : Type := mkPoly { coeffs : list Z }.

Definition poly_wf (p : NEWHOPE_POLY) : Prop := length (coeffs p) = PARAM_N.

(** [c->coeffs[i]] as an rvalue. *)
Definition coeff (c : NEWHOPE_POLY) (i : nat) : Z := coeffs c !!! i.

(** [c->coeffs[i] = v]. *)
Definition set_coeff (c : NEWHOPE_POLY) (i : nat) (v : Z) : NEWHOPE_POLY :=
  mkPoly (<[i := uint16 v]> (coeffs c)).

(** [r[i]] as an rvalue, for a byte buffer. *)
Definition byte_at (r : list Z) (i : nat) : Z := r !!! i.

(** [for (i = start; i < start + cnt; i++) body], on the state the body
    updates. *)
Fixpoint for_loop {S : Type} (body : nat -> S -> S) (start cnt : nat) (s : S) : S :=
  match cnt with
  | O => s
  | Datatypes.S cnt' => for_loop body (Datatypes.S start) cnt' (body start s)
  end.

(** The callee gets [&buf[off]] and updates the memory behind it.  The C
    code is defined only when the callee stays inside the buffer; the
    statements below say so with the lengths of the buffers. *)
Definition at_offset (off : nat) (f : list Z -> list Z) (buf : list Z) : list Z :=
  take off buf ++ f (drop off buf).

(** A callee that stores the bytes [data] at the start of the buffer it is
    given. *)
Definition store_bytes (data : list Z) (buf : list Z) : list Z :=
  data ++ drop (length data) buf.

(** ** The reconciliation codec *)

(** The right-hand side of the assignment in [encode_rec], stored to a
    [uint8_t].  The operands are promoted to [int], where a 16-bit value
    shifted left by at most 6 does not overflow, so the expression is the
    exact one on [Z] and only the store truncates. *)
Definition encode_rec_byte (c : NEWHOPE_POLY) (i : nat) : Z :=
  uint8 (Z.lor (Z.lor (Z.lor (coeff c (4 * i))
                             (Z.shiftl (coeff c (4 * i + 1)) 2))
                      (Z.shiftl (coeff c (4 * i + 2)) 4))
               (Z.shiftl (coeff c (4 * i + 3)) 6)).

Definition encode_rec_body (c : NEWHOPE_POLY) (i : nat) (r : list Z) : list Z :=
  <[i := encode_rec_byte c i]> r.

Definition encode_rec (c : NEWHOPE_POLY) (r : list Z) : list Z :=
  for_loop (encode_rec_body c) 0 (PARAM_N / 4) r.

Definition decode_rec_body (r : list Z) (i : nat) (c : NEWHOPE_POLY) : NEWHOPE_POLY :=
  let c := set_coeff c (4 * i + 0) (Z.land (byte_at r i) 3) in
  let c := set_coeff c (4 * i + 1) (Z.land (Z.shiftr (byte_at r i) 2) 3) in
  let c := set_coeff c (4 * i + 2) (Z.land (Z.shiftr (byte_at r i) 4) 3) in
  set_coeff c (4 * i + 3) (Z.shiftr (byte_at r i) 6).

Definition decode_rec (r : list Z) (c : NEWHOPE_POLY) : NEWHOPE_POLY :=
  for_loop (decode_rec_body r) 0 (PARAM_N / 4) c.

(** The value the loop of [decode_rec] leaves in [c->coeffs[j]]: which of the
    four assignments of iteration [j / 4] wrote it. *)
Definition decode_rec_coeff (r : list Z) (j : nat) : Z :=
  let b := byte_at r (j / 4) in
  uint16 (match (j mod 4)%nat with
          | 0%nat => Z.land b 3
          | 1%nat => Z.land (Z.shiftr b 2) 3
          | 2%nat => Z.land (Z.shiftr b 4) 3
          | _ => Z.shiftr b 6
          end).

(** Bits [lo, lo + width) of [b]. *)
Definition bit_field (b lo width : Z) : Z := Z.land (Z.shiftr b lo) (Z.ones width).

(** A reconciliation hint: [PARAM_N] coefficients of two bits each. *)
Definition is_hint (h : NEWHOPE_POLY) : Prop :=
  poly_wf h /\ Forall (fun x => 0 <= x < 4) (coeffs h).

(** [is_hint] as a check that runs. *)
Definition hint_ok (h : NEWHOPE_POLY) : bool :=
  (length (coeffs h) =? PARAM_N)%nat && forallb (fun x => (0 <=? x) && (x <? 4)) (coeffs h).

(** ** The random byte source as threaded state *)

Definition M (R A : Type) : Type := R -> A * R.

Definition ret {R A : Type} (a : A) : M R A := fun g => (a, g).

Definition bind {R A B : Type} (m : M R A) (k : A -> M R B) : M R B :=
  fun g => let (a, g') := m g in k a g'.

Notation "x <- m ;; k" := (bind m (fun x => k))
  (at level 100, m at next level, right associativity).

(** ** The handshake *)

(** What [NEWHOPE_accept] leaves behind: its return value and the two output
    buffers. *)
Record accept_result : Type := mkAccept {
  accept_ret : Z;
  accept_key : list Z;
  accept_msg : list Z
}.

(** What [NEWHOPE_finish] leaves behind: its return value and the key
    buffer. *)
Record finish_result : Type := mkFinish {
  finish_ret : Z;
  finish_key : list Z
}.

(** What [NEWHOPE_accept_computation] writes through its three output
    pointers. *)
Record accept_computation_result : Type := mkComputation {
  comp_k : list Z;
  comp_bp : NEWHOPE_POLY;
  comp_reconciliation : NEWHOPE_POLY
}.

Section Orchestrator.

(** The state of the random byte source behind [RAND_bytes]. *)
Context {rng : Type}.

(** The callees of newhope.c that are defined elsewhere.  A callee that
    fills an output object is a function returning that object; a callee
    that draws random bytes runs in [M rng]. *)
Variable RAND_bytes : nat -> M rng (list Z).
Variable newhope_poly_getnoise : M rng NEWHOPE_POLY.
Variable newhope_poly_ntt : NEWHOPE_POLY -> NEWHOPE_POLY.
Variable newhope_poly_invntt : NEWHOPE_POLY -> NEWHOPE_POLY.
Variable newhope_poly_pointwise : NEWHOPE_POLY -> NEWHOPE_POLY -> NEWHOPE_POLY.
Variable newhope_poly_add : NEWHOPE_POLY -> NEWHOPE_POLY -> NEWHOPE_POLY.
Variable newhope_poly_uniform : list Z -> NEWHOPE_POLY.
Variable newhope_poly_tobytes : NEWHOPE_POLY -> list Z.
Variable NEWHOPE_POLY_frombytes : list Z -> NEWHOPE_POLY.
Variable newhope_helprec : NEWHOPE_POLY -> list Z -> NEWHOPE_POLY.
Variable newhope_reconcile : NEWHOPE_POLY -> NEWHOPE_POLY -> list Z.

(** The hash: each call returns 0 ([None]) or 1 with its effect. *)
Context {SHA256_CTX : Type}.
Variable SHA256_Init : option SHA256_CTX.
Variable SHA256_Update : SHA256_CTX -> list Z -> option SHA256_CTX.
Variable SHA256_Final : SHA256_CTX -> option (list Z).

(** [SHA256_Init(&ctx) && SHA256_Update(&ctx, k, NEWHOPE_KEY_LENGTH) &&
    SHA256_Final(key, &ctx)]: the digest, or [None] as soon as one of the
    three calls returns 0.  What a failing call leaves in [key] is not
    visible from newhope.c; the entry points below keep the buffer as it was
    in that case, and no statement depends on it. *)
Definition sha256_of_key (k : list Z) : option (list Z) :=
  match SHA256_Init with
  | None => None
  | Some ctx =>
      match SHA256_Update ctx (take NEWHOPE_KEY_LENGTH k) with
      | None => None
      | Some ctx' => SHA256_Final ctx'
      end
  end.

Definition NEWHOPE_offer (offermsg : list Z) : M rng (list Z * NEWHOPE_POLY) :=
  sk <- newhope_poly_getnoise ;;
  let sk := newhope_poly_ntt sk in
  seed_bytes <- RAND_bytes SEED_LENGTH ;;
  let offermsg := at_offset NEWHOPE_POLY_LENGTH (store_bytes seed_bytes) offermsg in
  let a := newhope_poly_uniform (drop NEWHOPE_POLY_LENGTH offermsg) in
  e <- newhope_poly_getnoise ;;
  let e := newhope_poly_ntt e in
  let r := newhope_poly_pointwise sk a in
  let pk := newhope_poly_add e r in
  let offermsg := store_bytes (newhope_poly_tobytes pk) offermsg in
  ret (offermsg, sk).

Definition NEWHOPE_accept_computation
    (sp epp : NEWHOPE_POLY) (rand : list Z) (pk a : NEWHOPE_POLY)
    : M rng accept_computation_result :=
  ep <- newhope_poly_getnoise ;;
  let ep := newhope_poly_ntt ep in
  let bp := newhope_poly_pointwise a sp in
  let bp := newhope_poly_add bp ep in
  let v := newhope_poly_pointwise pk sp in
  let v := newhope_poly_invntt v in
  let v := newhope_poly_add v epp in
  let reconciliation := newhope_helprec v rand in
  let k := newhope_reconcile v reconciliation in
  ret (mkComputation k bp reconciliation).

Definition NEWHOPE_finish_computation
    (sk bp reconciliation : NEWHOPE_POLY) : list Z :=
  let v := newhope_poly_pointwise sk bp in
  let v := newhope_poly_invntt v in
  newhope_reconcile v reconciliation.

(** Lines 86-111 of [NEWHOPE_accept]: everything after the offer message has
    been decoded into [pk] and [a]. *)
Definition accept_from (pk a : NEWHOPE_POLY) (key acceptmsg : list Z)
    : M rng accept_result :=
  sp <- newhope_poly_getnoise ;;
  let sp := newhope_poly_ntt sp in
  epp <- newhope_poly_getnoise ;;
  rand <- RAND_bytes 32 ;;
  out <- NEWHOPE_accept_computation sp epp rand pk a ;;
  let acceptmsg := store_bytes (newhope_poly_tobytes (comp_bp out)) acceptmsg in
  let acceptmsg :=
    at_offset NEWHOPE_POLY_LENGTH (encode_rec (comp_reconciliation out)) acceptmsg in
  match sha256_of_key (comp_k out) with
  | None => ret (mkAccept 0 key acceptmsg)
  | Some digest => ret (mkAccept 1 (store_bytes digest key) acceptmsg)
  end.

Definition NEWHOPE_accept (key acceptmsg offermsg : list Z) (msg_len : nat)
    : M rng accept_result :=
  if negb (msg_len =? NEWHOPE_OFFERMSG_LENGTH)%nat then
    ret (mkAccept 0 key acceptmsg)
  else
    let seed := drop NEWHOPE_POLY_LENGTH offermsg in
    let a := newhope_poly_uniform seed in
    let pk := NEWHOPE_POLY_frombytes offermsg in
    accept_from pk a key acceptmsg.

(** The array [k] of [NEWHOPE_accept] after the call of
    [NEWHOPE_accept_computation]: the responder's raw secret. *)
Definition accept_raw_secret (offermsg : list Z) : M rng (list Z) :=
  let seed := drop NEWHOPE_POLY_LENGTH offermsg in
  let a := newhope_poly_uniform seed in
  let pk := NEWHOPE_POLY_frombytes offermsg in
  sp <- newhope_poly_getnoise ;;
  let sp := newhope_poly_ntt sp in
  epp <- newhope_poly_getnoise ;;
  rand <- RAND_bytes 32 ;;
  out <- NEWHOPE_accept_computation sp epp rand pk a ;;
  ret (comp_k out).

(** [c_init] stands for the indeterminate contents of the local [c] before
    [decode_rec] fills it. *)
Definition NEWHOPE_finish (c_init : NEWHOPE_POLY)
    (key : list Z) (sk : NEWHOPE_POLY) (acceptmsg : list Z) (msg_len : nat)
    : M rng finish_result :=
  if negb (msg_len =? NEWHOPE_ACCEPTMSG_LENGTH)%nat then
    ret (mkFinish 0 key)
  else
    let bp := NEWHOPE_POLY_frombytes acceptmsg in
    let c := decode_rec (drop NEWHOPE_POLY_LENGTH acceptmsg) c_init in
    let k := NEWHOPE_finish_computation sk bp c in
    match sha256_of_key k with
    | None => ret (mkFinish 0 key)
    | Some digest => ret (mkFinish 1 (store_bytes digest key))
    end.

(** The array [k] of [NEWHOPE_finish] after the call of
    [NEWHOPE_finish_computation]: the initiator's raw secret. *)
Definition finish_raw_secret (c_init sk : NEWHOPE_POLY) (acceptmsg : list Z) : list Z :=
  let bp := NEWHOPE_POLY_frombytes acceptmsg in
  let c := decode_rec (drop NEWHOPE_POLY_LENGTH acceptmsg) c_init in
  NEWHOPE_finish_computation sk bp c.

End Orchestrator.


(** ** An executable instantiation of the callees *)

(** The handshake is run on concrete inputs with the stand-ins below.  They
    have the shapes of the library's functions (a ring of [PARAM_N]
    coefficients modulo [PARAM_Q], 14-bit packing of ring elements, 2-bit
    hints, a 32-byte digest) but not its algorithms: the ring is used in its
    evaluation domain, where the transform is the identity; noise and random
    bytes are read from a fixed byte stream at the position the state holds;
    reconciliation rounds one coefficient per key bit; the digest is a
    checksum. *)
Module Ref.

Definition PARAM_Q : Z := 12289.

Definition stream_byte (n : nat) : Z :=
  (Z.of_nat n * Z.of_nat n * 37 + Z.of_nat n * 101 + 13) mod 256.

Definition RAND_bytes (len : nat) : M nat (list Z) :=
  fun g => (map stream_byte (seq g len), (g + len)%nat).

Definition noise_coeff (n : nat) : Z :=
  let b := stream_byte n in (b mod 2 - (b / 2) mod 2) mod PARAM_Q.

Definition newhope_poly_getnoise : M nat NEWHOPE_POLY :=
  fun g => (mkPoly (map noise_coeff (seq g PARAM_N)), (g + PARAM_N)%nat).

Definition poly_map2 (f : Z -> Z -> Z) (p q : NEWHOPE_POLY) : NEWHOPE_POLY :=
  mkPoly (zip_with f (coeffs p) (coeffs q)).

Definition newhope_poly_add : NEWHOPE_POLY -> NEWHOPE_POLY -> NEWHOPE_POLY :=
  poly_map2 (fun x y => (x + y) mod PARAM_Q).

Definition newhope_poly_pointwise : NEWHOPE_POLY -> NEWHOPE_POLY -> NEWHOPE_POLY :=
  poly_map2 (fun x y => (x * y) mod PARAM_Q).

Definition newhope_poly_ntt (p : NEWHOPE_POLY) : NEWHOPE_POLY := p.

Definition newhope_poly_invntt (p : NEWHOPE_POLY) : NEWHOPE_POLY := p.

Definition newhope_poly_uniform (seed : list Z) : NEWHOPE_POLY :=
  mkPoly (map (fun i => (byte_at seed (i mod 32) * 257 + Z.of_nat i * 7919) mod PARAM_Q)
              (seq 0 PARAM_N)).

Definition pack4 (t0 t1 t2 t3 : Z) : list Z :=
  [ uint8 (Z.land t0 255);
    uint8 (Z.lor (Z.shiftr t0 8) (Z.shiftl t1 6));
    uint8 (Z.shiftr t1 2);
    uint8 (Z.lor (Z.shiftr t1 10) (Z.shiftl t2 4));
    uint8 (Z.shiftr t2 4);
    uint8 (Z.lor (Z.shiftr t2 12) (Z.shiftl t3 2));
    uint8 (Z.shiftr t3 6) ].

Definition newhope_poly_tobytes (p : NEWHOPE_POLY) : list Z :=
  flat_map (fun i => pack4 (coeff p (4 * i)) (coeff p (4 * i + 1))
                           (coeff p (4 * i + 2)) (coeff p (4 * i + 3)))
           (seq 0 (PARAM_N / 4)).

Definition unpack4 (a : list Z) (i : nat) : list Z :=
  let b k := byte_at a (7 * i + k) in
  [ Z.lor (b 0%nat) (Z.shiftl (Z.land (b 1%nat) 63) 8);
    Z.lor (Z.lor (Z.shiftr (b 1%nat) 6) (Z.shiftl (b 2%nat) 2))
          (Z.shiftl (Z.land (b 3%nat) 15) 10);
    Z.lor (Z.lor (Z.shiftr (b 3%nat) 4) (Z.shiftl (b 4%nat) 4))
          (Z.shiftl (Z.land (b 5%nat) 3) 12);
    Z.lor (Z.shiftr (b 5%nat) 2) (Z.shiftl (b 6%nat) 6) ].

Definition NEWHOPE_POLY_frombytes (a : list Z) : NEWHOPE_POLY :=
  mkPoly (flat_map (unpack4 a) (seq 0 (PARAM_N / 4))).

(** Bit [j] of the 32 random bytes. *)
Definition rand_bit (rand : list Z) (j : nat) : Z :=
  Z.b2z (Z.testbit (byte_at rand ((j / 8) mod 32)) (Z.of_nat (j mod 8))).

(** The hint of a coefficient: its octant on the doubled, dithered circle,
    modulo 4. *)
Definition newhope_helprec (v : NEWHOPE_POLY) (rand : list Z) : NEWHOPE_POLY :=
  mkPoly (map (fun j => (4 * (2 * coeff v j + rand_bit rand j) / PARAM_Q) mod 4)
              (seq 0 PARAM_N)).

Definition circle_dist (x c : Z) : Z :=
  Z.min ((x - c) mod PARAM_Q) ((c - x) mod PARAM_Q).

(** The key bit of a coefficient: of the two octants the hint allows, the one
    whose centre is nearer decides. *)
Definition reconcile_bit (x h : Z) : Z :=
  let lo := (2 * h + 1) * PARAM_Q / 16 in
  let hi := lo + PARAM_Q / 2 in
  let upper := circle_dist x hi <? circle_dist x lo in
  Z.b2z (xorb (2 <=? h) upper).

Definition newhope_reconcile (v c : NEWHOPE_POLY) : list Z :=
  map (fun i =>
         fold_right (fun b acc => reconcile_bit (coeff v (8 * i + b)) (coeff c (8 * i + b))
                                  + 2 * acc) 0 (seq 0 8))
      (seq 0 NEWHOPE_KEY_LENGTH).

Definition SHA256_CTX : Type := list Z.

Definition SHA256_Init : option SHA256_CTX := Some [].

Definition SHA256_Update (ctx : SHA256_CTX) (data : list Z) : option SHA256_CTX :=
  Some (ctx ++ data).

Definition digest_byte (ctx : SHA256_CTX) (i : nat) : Z :=
  fold_left (fun acc x => ((acc + x) * (acc + 2 * Z.of_nat i + 3) + 1) mod 65521) ctx 7
  mod 256.

Definition SHA256_Final (ctx : SHA256_CTX) : option (list Z) :=
  Some (map (digest_byte ctx) (seq 0 SHA256_DIGEST_LENGTH)).

(** A hash whose first call returns 0. *)
Definition SHA256_Init_failing : option SHA256_CTX := None.

End Ref.

(** ** A run of the handshake on the instantiation *)

Module Run.

(** The three entry points on the stand-ins of [Ref]. *)
Abbreviation offer :=
  (NEWHOPE_offer Ref.RAND_bytes Ref.newhope_poly_getnoise Ref.newhope_poly_ntt
     Ref.newhope_poly_pointwise Ref.newhope_poly_add Ref.newhope_poly_uniform
     Ref.newhope_poly_tobytes).

Abbreviation accept :=
  (NEWHOPE_accept Ref.RAND_bytes Ref.newhope_poly_getnoise Ref.newhope_poly_ntt
     Ref.newhope_poly_invntt Ref.newhope_poly_pointwise Ref.newhope_poly_add
     Ref.newhope_poly_uniform Ref.newhope_poly_tobytes Ref.NEWHOPE_POLY_frombytes
     Ref.newhope_helprec Ref.newhope_reconcile
     Ref.SHA256_Init Ref.SHA256_Update Ref.SHA256_Final).

Abbreviation finish :=
  (NEWHOPE_finish (rng := nat) Ref.newhope_poly_invntt Ref.newhope_poly_pointwise
     Ref.NEWHOPE_POLY_frombytes Ref.newhope_reconcile
     Ref.SHA256_Init Ref.SHA256_Update Ref.SHA256_Final).

Abbreviation accept_secret :=
  (accept_raw_secret Ref.RAND_bytes Ref.newhope_poly_getnoise Ref.newhope_poly_ntt
     Ref.newhope_poly_invntt Ref.newhope_poly_pointwise Ref.newhope_poly_add
     Ref.newhope_poly_uniform Ref.NEWHOPE_POLY_frombytes Ref.newhope_helprec
     Ref.newhope_reconcile).

Abbreviation finish_secret :=
  (finish_raw_secret Ref.newhope_poly_invntt Ref.newhope_poly_pointwise
     Ref.NEWHOPE_POLY_frombytes Ref.newhope_reconcile).

(** The buffers the caller hands in, and some contents for the local [c] of
    [NEWHOPE_finish]. *)
Definition offer_buffer : list Z := replicate NEWHOPE_OFFERMSG_LENGTH 0.
Definition accept_buffer : list Z := replicate NEWHOPE_ACCEPTMSG_LENGTH 0.
Definition key_buffer : list Z := replicate SHA256_DIGEST_LENGTH 0.
Definition other_key_buffer : list Z := replicate SHA256_DIGEST_LENGTH 7.
Definition stale_poly : NEWHOPE_POLY := mkPoly (replicate PARAM_N 9).

(** The initiator starts its byte stream at 0, the responder at 5000. *)
Abbreviation offer_out := (offer offer_buffer 0%nat).
Abbreviation offermsg := (fst (fst offer_out)).
Abbreviation sk := (snd (fst offer_out)).

Abbreviation accept_out :=
  (accept key_buffer accept_buffer offermsg NEWHOPE_OFFERMSG_LENGTH 5000%nat).
Abbreviation acceptmsg := (accept_msg (fst accept_out)).

Abbreviation finish_out :=
  (finish stale_poly key_buffer sk acceptmsg NEWHOPE_ACCEPTMSG_LENGTH (snd offer_out)).

(** What the initiator draws, in the order of [NEWHOPE_offer]: the secret at
    position 0 of the stream, the seed at 1024, the error at 1056. *)
Definition s0 : NEWHOPE_POLY := fst (Ref.newhope_poly_getnoise 0%nat).
Definition seed : list Z := fst (Ref.RAND_bytes SEED_LENGTH 1024%nat).
Definition e0 : NEWHOPE_POLY := fst (Ref.newhope_poly_getnoise 1056%nat).

Abbreviation pk :=
  (Ref.newhope_poly_add (Ref.newhope_poly_ntt e0)
     (Ref.newhope_poly_pointwise (Ref.newhope_poly_ntt s0)
        (Ref.newhope_poly_uniform seed))).

(** The session key both sides of this run end with. *)
Definition session_key : list Z :=
  [184; 54; 6; 240; 4; 180; 65; 108; 113; 110; 166; 9; 223; 220; 203; 136;
   239; 32; 163; 162; 64; 249; 74; 246; 169; 70; 0; 15; 49; 51; 91; 56].

(** A hint with all four values, and a buffer for its packed form. *)
Definition sample_hint : NEWHOPE_POLY :=
  mkPoly (map (fun i => Z.of_nat (i mod 4)) (seq 0 PARAM_N)).
Definition hint_buffer : list Z := replicate (PARAM_N / 4) 255.

(** What the responder draws, in the order of [NEWHOPE_accept]: the secret
    at position 5000 of the stream, the second error at 6024, the 32 random
    bytes at 7048, and the first error, drawn last, at 7080. *)
Definition sp0 : NEWHOPE_POLY := fst (Ref.newhope_poly_getnoise 5000%nat).
Definition epp : NEWHOPE_POLY := fst (Ref.newhope_poly_getnoise 6024%nat).
Definition rand : list Z := fst (Ref.RAND_bytes 32 7048%nat).
Definition ep0 : NEWHOPE_POLY := fst (Ref.newhope_poly_getnoise 7080%nat).

Abbreviation bp :=
  (Ref.newhope_poly_add
     (Ref.newhope_poly_pointwise (Ref.newhope_poly_uniform seed)
        (Ref.newhope_poly_ntt sp0))
     (Ref.newhope_poly_ntt ep0)).

(** The same responder with the failing hash. *)
Abbreviation accept_failing :=
  (NEWHOPE_accept Ref.RAND_bytes Ref.newhope_poly_getnoise Ref.newhope_poly_ntt
     Ref.newhope_poly_invntt Ref.newhope_poly_pointwise Ref.newhope_poly_add
     Ref.newhope_poly_uniform Ref.newhope_poly_tobytes Ref.NEWHOPE_POLY_frombytes
     Ref.newhope_helprec Ref.newhope_reconcile
     Ref.SHA256_Init_failing Ref.SHA256_Update Ref.SHA256_Final).

(** Buffers with other contents. *)
Definition other_offer_buffer : list Z := replicate NEWHOPE_OFFERMSG_LENGTH 170.
Definition other_accept_buffer : list Z := replicate NEWHOPE_ACCEPTMSG_LENGTH 85.

(** A buffer with every byte value, each once. *)
Definition all_bytes : list Z := map Z.of_nat (seq 0 (PARAM_N / 4)).

(** A second responder, who starts its byte stream where the initiator
    stopped, at 2080: its draws, and the values it and the initiator
    reconcile. *)
Definition sp1 : NEWHOPE_POLY := fst (Ref.newhope_poly_getnoise 2080%nat).
Definition epp1 : NEWHOPE_POLY := fst (Ref.newhope_poly_getnoise 3104%nat).
Definition rand1 : list Z := fst (Ref.RAND_bytes 32 4128%nat).
Definition ep1 : NEWHOPE_POLY := fst (Ref.newhope_poly_getnoise 4160%nat).

Abbreviation bp1 :=
  (Ref.newhope_poly_add
     (Ref.newhope_poly_pointwise (Ref.newhope_poly_uniform seed)
        (Ref.newhope_poly_ntt sp1))
     (Ref.newhope_poly_ntt ep1)).
Abbreviation v1 :=
  (Ref.newhope_poly_add
     (Ref.newhope_poly_invntt (Ref.newhope_poly_pointwise pk (Ref.newhope_poly_ntt sp1)))
     epp1).
Abbreviation v1' :=
  (Ref.newhope_poly_invntt (Ref.newhope_poly_pointwise (Ref.newhope_poly_ntt s0) bp1)).
Abbreviation hint1 := (Ref.newhope_helprec v1 rand1).

End Run.

(** * Properties *)

(** ** The loops of the reconciliation codec *)

Lemma encode_loop_lookup c cnt : forall start (r : list Z) j,
  for_loop (encode_rec_body c) start cnt r !! j =
  if decide ((start <= j < start + cnt)%nat /\ (j < length r)%nat)
  then Some (encode_rec_byte c j) else r !! j.
Proof.
  induction cnt as [|cnt IH]; intros start r j; simpl.
  - case_decide; [lia | done].
  - rewrite IH. unfold encode_rec_body. rewrite length_insert.
    destruct (decide (j = start)) as [->|Hne].
    + repeat case_decide; try lia; try done.
      * rewrite list_lookup_insert_eq by lia. done.
      * rewrite list_insert_ge by lia. done.
    + rewrite list_lookup_insert_ne by done.
      repeat case_decide; try lia; done.
Qed.

Lemma length_encode_loop c cnt : forall start (r : list Z),
  length (for_loop (encode_rec_body c) start cnt r) = length r.
Proof.
  induction cnt as [|cnt IH]; intros start r; simpl; [done|].
  rewrite IH. apply length_insert.
Qed.

Lemma length_set_coeff c i v : length (coeffs (set_coeff c i v)) = length (coeffs c).
Proof. apply length_insert. Qed.

Lemma length_decode_body r i c :
  length (coeffs (decode_rec_body r i c)) = length (coeffs c).
Proof. unfold decode_rec_body. by rewrite !length_set_coeff. Qed.

Lemma length_decode_loop r cnt : forall start c,
  length (coeffs (for_loop (decode_rec_body r) start cnt c)) = length (coeffs c).
Proof.
  induction cnt as [|cnt IH]; intros start c; simpl; [done|].
  rewrite IH. apply length_decode_body.
Qed.

Lemma lookup_set_coeff c i v j :
  coeffs (set_coeff c i v) !! j =
  if decide (j = i /\ (j < length (coeffs c))%nat) then Some (uint16 v) else coeffs c !! j.
Proof.
  unfold set_coeff; simpl. destruct (decide (j = i)) as [->|Hne].
  - case_decide as H.
    + apply list_lookup_insert_eq. lia.
    + rewrite list_insert_ge by lia. done.
  - rewrite list_lookup_insert_ne by done. case_decide; [lia | done].
Qed.

Lemma decode_body_lookup r i c j :
  coeffs (decode_rec_body r i c) !! j =
  if decide ((4 * i <= j < 4 * i + 4)%nat /\ (j < length (coeffs c))%nat)
  then Some (decode_rec_coeff r j) else coeffs c !! j.
Proof.
  unfold decode_rec_body. rewrite !lookup_set_coeff, !length_set_coeff.
  unfold decode_rec_coeff.
  repeat case_decide; try lia; try done.
  - replace (j / 4)%nat with i by lia. replace (j mod 4)%nat with 3%nat by lia. done.
  - replace (j / 4)%nat with i by lia. replace (j mod 4)%nat with 2%nat by lia. done.
  - replace (j / 4)%nat with i by lia. replace (j mod 4)%nat with 1%nat by lia. done.
  - replace (j / 4)%nat with i by lia. replace (j mod 4)%nat with 0%nat by lia. done.
Qed.

Lemma decode_loop_lookup r cnt : forall start c j,
  coeffs (for_loop (decode_rec_body r) start cnt c) !! j =
  if decide ((4 * start <= j < 4 * (start + cnt))%nat /\ (j < length (coeffs c))%nat)
  then Some (decode_rec_coeff r j) else coeffs c !! j.
Proof.
  induction cnt as [|cnt IH]; intros start c j; simpl.
  - case_decide; [lia | done].
  - rewrite IH, length_decode_body, decode_body_lookup.
    repeat case_decide; try lia; done.
Qed.

Lemma PARAM_N_quarter : (PARAM_N / 4 = 256)%nat.
Proof. reflexivity. Qed.

Lemma two_bit_cases x : 0 <= x < 4 -> x = 0 \/ x = 1 \/ x = 2 \/ x = 3.
Proof. lia. Qed.

Lemma pack_fields c0 c1 c2 c3 :
  0 <= c0 < 4 -> 0 <= c1 < 4 -> 0 <= c2 < 4 -> 0 <= c3 < 4 ->
  let b := uint8 (Z.lor (Z.lor (Z.lor c0 (Z.shiftl c1 2)) (Z.shiftl c2 4)) (Z.shiftl c3 6)) in
  Z.land b 3 = c0 /\ Z.land (Z.shiftr b 2) 3 = c1 /\
  Z.land (Z.shiftr b 4) 3 = c2 /\ Z.shiftr b 6 = c3.
Proof.
  intros H0 H1 H2 H3.
  destruct (two_bit_cases _ H0) as [-> | [-> | [-> | ->]]];
  destruct (two_bit_cases _ H1) as [-> | [-> | [-> | ->]]];
  destruct (two_bit_cases _ H2) as [-> | [-> | [-> | ->]]];
  destruct (two_bit_cases _ H3) as [-> | [-> | [-> | ->]]];
  vm_compute; auto.
Qed.

Lemma unpack_fields_range b :
  is_uint8 b ->
  0 <= Z.land b 3 < 4 /\ 0 <= Z.land (Z.shiftr b 2) 3 < 4 /\
  0 <= Z.land (Z.shiftr b 4) 3 < 4 /\ 0 <= Z.shiftr b 6 < 4.
Proof.
  unfold is_uint8. intros Hb.
  change 3 with (Z.ones 2). rewrite !Z.land_ones by lia.
  rewrite !Z.shiftr_div_pow2 by lia.
  change (2 ^ 2) with 4. change (2 ^ 4) with 16. change (2 ^ 6) with 64.
  lia.
Qed.

Lemma encode_rec_lookup h (r : list Z) i :
  (i < PARAM_N / 4)%nat -> (i < length r)%nat ->
  encode_rec h r !! i = Some (encode_rec_byte h i).
Proof.
  intros Hi Hr. unfold encode_rec. rewrite encode_loop_lookup.
  case_decide; [done | lia].
Qed.

Lemma encode_rec_frame h (r : list Z) i :
  (PARAM_N / 4 <= i)%nat -> encode_rec h r !! i = r !! i.
Proof.
  intros Hi. unfold encode_rec. rewrite encode_loop_lookup.
  case_decide; [lia | done].
Qed.

Lemma length_encode_rec h (r : list Z) : length (encode_rec h r) = length r.
Proof. apply length_encode_loop. Qed.

Lemma decode_rec_lookup r c j :
  poly_wf c -> (j < PARAM_N)%nat ->
  coeffs (decode_rec r c) !! j = Some (decode_rec_coeff r j).
Proof.
  unfold poly_wf. intros Hc Hj. unfold decode_rec.
  rewrite decode_loop_lookup, PARAM_N_quarter.
  unfold PARAM_N in *. case_decide; [done | lia].
Qed.

Lemma decode_rec_wf r c : poly_wf c -> poly_wf (decode_rec r c).
Proof. unfold poly_wf, decode_rec. by rewrite length_decode_loop. Qed.

Lemma hint_coeff_range h j : is_hint h -> (j < PARAM_N)%nat -> 0 <= coeff h j < 4.
Proof.
  intros [Hwf Hall] Hj. unfold coeff.
  apply (Forall_lookup_total_1 (fun x => 0 <= x < 4)); [done|].
  unfold poly_wf in Hwf. lia.
Qed.

Lemma uint16_small v : 0 <= v < 4 -> uint16 v = v.
Proof. intros Hv. unfold uint16. apply Z.mod_small. lia. Qed.

Lemma decode_coeff_encode h (r : list Z) i k :
  is_hint h -> (i < PARAM_N / 4)%nat -> (i < length r)%nat -> (k < 4)%nat ->
  decode_rec_coeff (encode_rec h r) (4 * i + k) = coeff h (4 * i + k).
Proof.
  intros Hh Hi Hr Hk. unfold decode_rec_coeff, byte_at.
  replace ((4 * i + k) / 4)%nat with i by lia.
  replace ((4 * i + k) mod 4)%nat with k by lia.
  rewrite (list_lookup_total_correct _ _ _ (encode_rec_lookup h r i Hi Hr)).
  rewrite PARAM_N_quarter in Hi.
  assert (H0 : 0 <= coeff h (4 * i) < 4) by (apply hint_coeff_range; unfold PARAM_N; [done | lia]).
  assert (H1 : 0 <= coeff h (4 * i + 1) < 4) by (apply hint_coeff_range; unfold PARAM_N; [done | lia]).
  assert (H2 : 0 <= coeff h (4 * i + 2) < 4) by (apply hint_coeff_range; unfold PARAM_N; [done | lia]).
  assert (H3 : 0 <= coeff h (4 * i + 3) < 4) by (apply hint_coeff_range; unfold PARAM_N; [done | lia]).
  destruct (pack_fields _ _ _ _ H0 H1 H2 H3) as (E0 & E1 & E2 & E3).
  unfold encode_rec_byte.
  destruct k as [|[|[|[|k]]]]; [| | | | lia].
  - rewrite E0, Nat.add_0_r. by apply uint16_small.
  - rewrite E1. by apply uint16_small.
  - rewrite E2. by apply uint16_small.
  - rewrite E3. by apply uint16_small.
Qed.

(** C5: unpacking the packed form of a hint gives the hint back, coefficient
    for coefficient, whatever the buffer and the coefficient array held
    before. *)
Theorem decode_rec_encode_rec (h : NEWHOPE_POLY) (r : list Z) (c : NEWHOPE_POLY) :
  is_hint h -> (PARAM_N / 4 <= length r)%nat -> poly_wf c ->
  decode_rec (encode_rec h r) c = h.
Proof.
  intros Hh Hr Hc.
  assert (E : coeffs (decode_rec (encode_rec h r) c) = coeffs h).
  { apply list_eq. intros j.
    destruct (decide (j < PARAM_N)%nat) as [Hj|Hj].
    - rewrite decode_rec_lookup by done.
      destruct Hh as [Hwf Hall]. unfold poly_wf in Hwf.
      rewrite (list_lookup_lookup_total_lt (coeffs h) j) by lia.
      f_equal.
      assert (Hjk : j = (4 * (j / 4) + j mod 4)%nat) by lia.
      assert (Hi : (j / 4 < PARAM_N / 4)%nat) by (unfold PARAM_N in *; lia).
      assert (Hk : (j mod 4 < 4)%nat) by lia.
      rewrite Hjk. apply decode_coeff_encode; [done | done | lia | done].
    - pose proof (decode_rec_wf (encode_rec h r) c Hc) as Hd.
      destruct Hh as [Hwf Hall]. unfold poly_wf in *.
      rewrite !lookup_ge_None_2 by lia. done. }
  destruct (decode_rec (encode_rec h r) c) as [l], h as [l']. simpl in E. by subst.
Qed.

Lemma byte_at_range (r : list Z) i :
  is_bytes r -> (i < length r)%nat -> is_uint8 (byte_at r i).
Proof. intros Hr Hi. unfold byte_at. by apply (Forall_lookup_total_1 is_uint8). Qed.

Lemma decode_rec_coeff_range (r : list Z) j :
  is_bytes r -> (j / 4 < length r)%nat -> 0 <= decode_rec_coeff r j < 4.
Proof.
  intros Hr Hj. unfold decode_rec_coeff.
  destruct (unpack_fields_range _ (byte_at_range r (j / 4) Hr Hj)) as (R0 & R1 & R2 & R3).
  destruct (j mod 4)%nat as [|[|[|k]]]; rewrite uint16_small; done.
Qed.

Lemma encode_rec_byte_range h i : is_uint8 (encode_rec_byte h i).
Proof. unfold encode_rec_byte, uint8, is_uint8. apply Z.mod_pos_bound. lia. Qed.

Lemma bit_field_low b : bit_field b 0 2 = Z.land b 3.
Proof. unfold bit_field. by rewrite Z.shiftr_0_r. Qed.

Lemma bit_field_top b : is_uint8 b -> bit_field b 6 2 = Z.shiftr b 6.
Proof.
  intros Hb. unfold bit_field. change (Z.ones 2) with 3.
  destruct (unpack_fields_range b Hb) as (_ & _ & _ & R3).
  change 3 with (Z.ones 2). rewrite Z.land_ones by lia.
  apply Z.mod_small. change (2 ^ 2) with 4. lia.
Qed.

(** C9: whatever bytes the wire carries, [decode_rec] fills [c] with
    [PARAM_N] coefficients that all lie in [0, 4): a buffer of [PARAM_N / 4]
    bytes always decodes to a structurally valid hint. *)
Theorem decode_rec_is_hint (r : list Z) (c : NEWHOPE_POLY) :
  is_bytes r -> length r = (PARAM_N / 4)%nat -> poly_wf c ->
  is_hint (decode_rec r c).
Proof.
  intros Hr Hlen Hc. split; [by apply decode_rec_wf|].
  apply Forall_lookup. intros j x Hx.
  assert (Hj : (j < PARAM_N)%nat).
  { apply lookup_lt_Some in Hx. by rewrite (decode_rec_wf r c Hc) in Hx. }
  rewrite decode_rec_lookup in Hx by done. injection Hx as <-.
  apply decode_rec_coeff_range; [done|].
  rewrite Hlen. unfold PARAM_N in *. lia.
Qed.

(** C6: the packed hint is [PARAM_N / 4] bytes long ([encode_rec] writes the
    first [PARAM_N / 4] bytes of its buffer and nothing behind them); byte [i] carries the
    hint values [4i], [4i+1], [4i+2], [4i+3] in its bits [0:2), [2:4), [4:6)
    and [6:8), and [decode_rec] reads coefficient [4i+k] back from bits
    [2k, 2k+2) of byte [i]. *)
Theorem hint_packing_layout (h : NEWHOPE_POLY) (r r' : list Z) (c : NEWHOPE_POLY) (i : nat) :
  is_hint h -> (PARAM_N / 4 <= length r)%nat ->
  is_bytes r' -> length r' = (PARAM_N / 4)%nat -> poly_wf c ->
  (i < PARAM_N / 4)%nat ->
  length (take (PARAM_N / 4) (encode_rec h r)) = (PARAM_N / 4)%nat /\
  drop (PARAM_N / 4) (encode_rec h r) = drop (PARAM_N / 4) r /\
  (exists b, encode_rec h r !! i = Some b /\ is_uint8 b /\
     bit_field b 0 2 = coeff h (4 * i) /\
     bit_field b 2 2 = coeff h (4 * i + 1) /\
     bit_field b 4 2 = coeff h (4 * i + 2) /\
     bit_field b 6 2 = coeff h (4 * i + 3)) /\
  coeff (decode_rec r' c) (4 * i) = bit_field (byte_at r' i) 0 2 /\
  coeff (decode_rec r' c) (4 * i + 1) = bit_field (byte_at r' i) 2 2 /\
  coeff (decode_rec r' c) (4 * i + 2) = bit_field (byte_at r' i) 4 2 /\
  coeff (decode_rec r' c) (4 * i + 3) = bit_field (byte_at r' i) 6 2.
Proof.
  intros Hh Hr Hr' Hlen' Hc Hi.
  split; [rewrite length_take, length_encode_rec; lia|].
  split.
  { apply list_eq. intros j. rewrite !lookup_drop. apply encode_rec_frame. lia. }
  assert (Hi' : (i < 256)%nat) by (by rewrite PARAM_N_quarter in Hi).
  assert (H0 : 0 <= coeff h (4 * i) < 4) by (apply hint_coeff_range; unfold PARAM_N; [done | lia]).
  assert (H1 : 0 <= coeff h (4 * i + 1) < 4) by (apply hint_coeff_range; unfold PARAM_N; [done | lia]).
  assert (H2 : 0 <= coeff h (4 * i + 2) < 4) by (apply hint_coeff_range; unfold PARAM_N; [done | lia]).
  assert (H3 : 0 <= coeff h (4 * i + 3) < 4) by (apply hint_coeff_range; unfold PARAM_N; [done | lia]).
  split.
  - exists (encode_rec_byte h i).
    split; [apply encode_rec_lookup; [done | lia]|].
    split; [apply encode_rec_byte_range|].
    destruct (pack_fields _ _ _ _ H0 H1 H2 H3) as (E0 & E1 & E2 & E3).
    rewrite bit_field_low, (bit_field_top _ (encode_rec_byte_range h i)).
    unfold bit_field, encode_rec_byte. change (Z.ones 2) with 3. done.
  - assert (Hb : is_uint8 (byte_at r' i)) by (apply byte_at_range; [done | lia]).
    assert (Hrd : forall k, (k < 4)%nat ->
              coeff (decode_rec r' c) (4 * i + k) = decode_rec_coeff r' (4 * i + k)).
    { intros k Hk. unfold coeff. apply list_lookup_total_correct.
      apply decode_rec_lookup; [done | unfold PARAM_N; lia]. }
    destruct (unpack_fields_range _ Hb) as (R0 & R1 & R2 & R3).
    rewrite <- (Nat.add_0_r (4 * i)) at 1.
    rewrite !Hrd by lia. unfold decode_rec_coeff.
    replace ((4 * i + 0) / 4)%nat with i by lia.
    replace ((4 * i + 1) / 4)%nat with i by lia.
    replace ((4 * i + 2) / 4)%nat with i by lia.
    replace ((4 * i + 3) / 4)%nat with i by lia.
    replace ((4 * i + 0) mod 4)%nat with 0%nat by lia.
    replace ((4 * i + 1) mod 4)%nat with 1%nat by lia.
    replace ((4 * i + 2) mod 4)%nat with 2%nat by lia.
    replace ((4 * i + 3) mod 4)%nat with 3%nat by lia.
    rewrite bit_field_low, (bit_field_top _ Hb), !uint16_small by done.
    unfold bit_field. change (Z.ones 2) with 3. done.
Qed.

(** ** The codec as a bijection *)

Lemma unpack_pack b :
  is_uint8 b ->
  uint8 (Z.lor (Z.lor (Z.lor (Z.land b 3) (Z.shiftl (Z.land (Z.shiftr b 2) 3) 2))
                      (Z.shiftl (Z.land (Z.shiftr b 4) 3) 4))
               (Z.shiftl (Z.shiftr b 6) 6)) = b.
Proof.
  unfold is_uint8. intros Hb.
  assert (H : exists c0 c1 c2 c3,
             0 <= c0 < 4 /\ 0 <= c1 < 4 /\ 0 <= c2 < 4 /\ 0 <= c3 < 4 /\
             b = c0 + 4 * c1 + 16 * c2 + 64 * c3).
  { exists (b mod 4), ((b / 4) mod 4), ((b / 16) mod 4), (b / 64). lia. }
  destruct H as (c0 & c1 & c2 & c3 & H0 & H1 & H2 & H3 & ->).
  destruct (two_bit_cases _ H0) as [-> | [-> | [-> | ->]]];
  destruct (two_bit_cases _ H1) as [-> | [-> | [-> | ->]]];
  destruct (two_bit_cases _ H2) as [-> | [-> | [-> | ->]]];
  destruct (two_bit_cases _ H3) as [-> | [-> | [-> | ->]]];
  vm_compute; reflexivity.
Qed.

Lemma coeff_decode_rec r c j :
  poly_wf c -> (j < PARAM_N)%nat -> coeff (decode_rec r c) j = decode_rec_coeff r j.
Proof.
  intros Hc Hj. unfold coeff. apply list_lookup_total_correct.
  by apply decode_rec_lookup.
Qed.

Lemma encode_byte_decode (r : list Z) c i :
  is_bytes r -> poly_wf c -> (i < PARAM_N / 4)%nat -> (i < length r)%nat ->
  encode_rec_byte (decode_rec r c) i = byte_at r i.
Proof.
  intros Hr Hc Hi Hlen. rewrite PARAM_N_quarter in Hi.
  pose proof (byte_at_range r i Hr Hlen) as Hb.
  destruct (unpack_fields_range _ Hb) as (R0 & R1 & R2 & R3).
  unfold encode_rec_byte.
  rewrite <- (Nat.add_0_r (4 * i)) at 1.
  rewrite !coeff_decode_rec by (done || (unfold PARAM_N; lia)).
  unfold decode_rec_coeff.
  replace ((4 * i + 0) / 4)%nat with i by lia.
  replace ((4 * i + 1) / 4)%nat with i by lia.
  replace ((4 * i + 2) / 4)%nat with i by lia.
  replace ((4 * i + 3) / 4)%nat with i by lia.
  replace ((4 * i + 0) mod 4)%nat with 0%nat by lia.
  replace ((4 * i + 1) mod 4)%nat with 1%nat by lia.
  replace ((4 * i + 2) mod 4)%nat with 2%nat by lia.
  replace ((4 * i + 3) mod 4)%nat with 3%nat by lia.
  rewrite !uint16_small by done. by apply unpack_pack.
Qed.



Lemma decode_of_encode h (r : list Z) c :
  is_hint h -> (PARAM_N / 4 <= length r)%nat -> poly_wf c ->
  decode_rec (encode_rec h r) c = h.
Proof.
  intros Hh Hr Hc.
  assert (E : coeffs (decode_rec (encode_rec h r) c) = coeffs h).
  { apply list_eq. intros j.
    destruct (decide (j < PARAM_N)%nat) as [Hj|Hj].
    - rewrite decode_rec_lookup by done.
      destruct Hh as [Hwf Hall]. unfold poly_wf in Hwf.
      rewrite (list_lookup_lookup_total_lt (coeffs h) j) by lia.
      f_equal.
      assert (Hjk : j = (4 * (j / 4) + j mod 4)%nat) by lia.
      assert (Hi : (j / 4 < PARAM_N / 4)%nat) by (unfold PARAM_N in *; lia).
      assert (Hk : (j mod 4 < 4)%nat) by lia.
      rewrite Hjk. apply decode_coeff_encode; [done | done | lia | done].
    - pose proof (decode_rec_wf (encode_rec h r) c Hc) as Hd.
      destruct Hh as [Hwf Hall]. unfold poly_wf in *.
      rewrite !lookup_ge_None_2 by lia. done. }
  destruct (decode_rec (encode_rec h r) c) as [l], h as [l']. simpl in E. by subst.
Qed.

Lemma encode_rec_init_irrelevant h (r1 r2 : list Z) :
  length r1 = (PARAM_N / 4)%nat -> length r2 = (PARAM_N / 4)%nat ->
  encode_rec h r1 = encode_rec h r2.
Proof.
  intros H1 H2. apply list_eq. intros i.
  destruct (decide (i < PARAM_N / 4)%nat) as [Hi|Hi].
  - by rewrite !encode_rec_lookup by (done || lia).
  - rewrite !encode_rec_frame by lia. rewrite !lookup_ge_None_2 by lia. done.
Qed.

(** X1: packing what [decode_rec] read out of a byte buffer gives the bytes
    back: on buffers of [PARAM_N / 4] bytes [encode_rec] undoes [decode_rec],
    so that with C5 the wire format is one-to-one between byte strings and
    hints. *)
Theorem encode_rec_decode_rec (r r0 : list Z) (c : NEWHOPE_POLY) :
  is_bytes r -> length r = (PARAM_N / 4)%nat ->
  length r0 = (PARAM_N / 4)%nat -> poly_wf c ->
  encode_rec (decode_rec r c) r0 = r.
Proof.
  intros Hr Hlen Hlen0 Hc. apply list_eq. intros i.
  destruct (decide (i < PARAM_N / 4)%nat) as [Hi|Hi].
  - rewrite encode_rec_lookup by (done || lia).
    rewrite encode_byte_decode by (done || lia).
    unfold byte_at. symmetry. apply list_lookup_lookup_total_lt. lia.
  - rewrite encode_rec_frame by lia. rewrite !lookup_ge_None_2 by lia. done.
Qed.


(** X3: neither loop reads what its output held before: [decode_rec] writes
    all [PARAM_N] coefficients and [encode_rec] all [PARAM_N / 4] bytes, so
    the result is the same from any two prior contents. *)
Theorem codec_overwrites (h : NEWHOPE_POLY) (r r1 r2 : list Z) (c1 c2 : NEWHOPE_POLY) :
  poly_wf c1 -> poly_wf c2 ->
  length r1 = (PARAM_N / 4)%nat -> length r2 = (PARAM_N / 4)%nat ->
  decode_rec r c1 = decode_rec r c2 /\ encode_rec h r1 = encode_rec h r2.
Proof.
  intros Hc1 Hc2 H1 H2. split.
  - assert (E : coeffs (decode_rec r c1) = coeffs (decode_rec r c2)).
    { apply list_eq. intros j.
      destruct (decide (j < PARAM_N)%nat) as [Hj|Hj].
      - by rewrite !decode_rec_lookup.
      - pose proof (decode_rec_wf r c1 Hc1). pose proof (decode_rec_wf r c2 Hc2).
        unfold poly_wf in *. rewrite !lookup_ge_None_2 by lia. done. }
    destruct (decode_rec r c1), (decode_rec r c2). simpl in E. by subst.
  - by apply encode_rec_init_irrelevant.
Qed.

(** ** Buffers *)

Lemma store_bytes_full (data buf : list Z) :
  length data = length buf -> store_bytes data buf = data.
Proof.
  intros H. unfold store_bytes. rewrite drop_ge by lia. apply app_nil_r.
Qed.

Lemma offer_buffer_layout (packed seed buf : list Z) :
  length buf = NEWHOPE_OFFERMSG_LENGTH -> length seed = SEED_LENGTH ->
  length packed = NEWHOPE_POLY_LENGTH ->
  let buf' := at_offset NEWHOPE_POLY_LENGTH (store_bytes seed) buf in
  drop NEWHOPE_POLY_LENGTH buf' = seed /\
  store_bytes packed buf' = packed ++ seed.
Proof.
  intros Hbuf Hseed Hpacked buf'.
  unfold NEWHOPE_OFFERMSG_LENGTH, SEED_LENGTH, NEWHOPE_POLY_LENGTH in *.
  assert (Hs : store_bytes seed (drop 1792 buf) = seed).
  { apply store_bytes_full. rewrite length_drop. lia. }
  assert (Hd : drop 1792 buf' = seed).
  { unfold buf', at_offset. rewrite Hs.
    apply drop_app_length'. rewrite length_take. lia. }
  split; [done|].
  unfold store_bytes. by rewrite Hpacked, Hd.
Qed.

Lemma decode_rec_init_irrelevant (r : list Z) (c1 c2 : NEWHOPE_POLY) :
  poly_wf c1 -> poly_wf c2 -> decode_rec r c1 = decode_rec r c2.
Proof.
  intros H1 H2.
  assert (E : coeffs (decode_rec r c1) = coeffs (decode_rec r c2)).
  { apply list_eq. intros j.
    destruct (decide (j < PARAM_N)%nat) as [Hj|Hj].
    - by rewrite !decode_rec_lookup.
    - pose proof (decode_rec_wf r c1 H1). pose proof (decode_rec_wf r c2 H2).
      unfold poly_wf in *. rewrite !lookup_ge_None_2 by lia. done. }
  destruct (decode_rec r c1), (decode_rec r c2). simpl in E. by subst.
Qed.

Lemma accept_buffer_layout (packed buf : list Z) (f : list Z -> list Z) :
  length buf = NEWHOPE_ACCEPTMSG_LENGTH -> length packed = NEWHOPE_POLY_LENGTH ->
  at_offset NEWHOPE_POLY_LENGTH f (store_bytes packed buf) =
    packed ++ f (drop NEWHOPE_POLY_LENGTH buf) /\
  length (drop NEWHOPE_POLY_LENGTH buf) = (PARAM_N / 4)%nat.
Proof.
  intros Hbuf Hpacked.
  unfold NEWHOPE_ACCEPTMSG_LENGTH, NEWHOPE_POLY_LENGTH in *.
  split; [|rewrite length_drop, Hbuf; reflexivity].
  unfold at_offset, store_bytes. rewrite Hpacked.
  rewrite take_app_length' by done. by rewrite drop_app_length'.
Qed.

Lemma packed_message_length (packed hint_bytes : list Z) :
  length packed = NEWHOPE_POLY_LENGTH -> length hint_bytes = (PARAM_N / 4)%nat ->
  length (packed ++ hint_bytes) = NEWHOPE_ACCEPTMSG_LENGTH /\
  drop NEWHOPE_POLY_LENGTH (packed ++ hint_bytes) = hint_bytes.
Proof.
  intros Hp Hh. split.
  - rewrite length_app, Hp, Hh. reflexivity.
  - by apply drop_app_length'.
Qed.

(** ** The handshake *)

Section HandshakeFacts.

Context {rng : Type}.
Variable RAND_bytes : nat -> M rng (list Z).
Variable newhope_poly_getnoise : M rng NEWHOPE_POLY.
Variable newhope_poly_ntt : NEWHOPE_POLY -> NEWHOPE_POLY.
Variable newhope_poly_invntt : NEWHOPE_POLY -> NEWHOPE_POLY.
Variable newhope_poly_pointwise : NEWHOPE_POLY -> NEWHOPE_POLY -> NEWHOPE_POLY.
Variable newhope_poly_add : NEWHOPE_POLY -> NEWHOPE_POLY -> NEWHOPE_POLY.
Variable newhope_poly_uniform : list Z -> NEWHOPE_POLY.
Variable newhope_poly_tobytes : NEWHOPE_POLY -> list Z.
Variable NEWHOPE_POLY_frombytes : list Z -> NEWHOPE_POLY.
Variable newhope_helprec : NEWHOPE_POLY -> list Z -> NEWHOPE_POLY.
Variable newhope_reconcile : NEWHOPE_POLY -> NEWHOPE_POLY -> list Z.
Context {SHA256_CTX : Type}.
Variable SHA256_Init : option SHA256_CTX.
Variable SHA256_Update : SHA256_CTX -> list Z -> option SHA256_CTX.
Variable SHA256_Final : SHA256_CTX -> option (list Z).

#[local] Abbreviation hash := (sha256_of_key SHA256_Init SHA256_Update SHA256_Final).
#[local] Abbreviation offer :=
  (NEWHOPE_offer RAND_bytes newhope_poly_getnoise newhope_poly_ntt
     newhope_poly_pointwise newhope_poly_add newhope_poly_uniform
     newhope_poly_tobytes).
#[local] Abbreviation accept_computation :=
  (NEWHOPE_accept_computation newhope_poly_getnoise newhope_poly_ntt
     newhope_poly_invntt newhope_poly_pointwise newhope_poly_add
     newhope_helprec newhope_reconcile).
#[local] Abbreviation finish_computation :=
  (NEWHOPE_finish_computation newhope_poly_invntt newhope_poly_pointwise
     newhope_reconcile).
#[local] Abbreviation accept_tail :=
  (accept_from RAND_bytes newhope_poly_getnoise newhope_poly_ntt
     newhope_poly_invntt newhope_poly_pointwise newhope_poly_add
     newhope_poly_tobytes newhope_helprec newhope_reconcile
     SHA256_Init SHA256_Update SHA256_Final).
#[local] Abbreviation accept :=
  (NEWHOPE_accept RAND_bytes newhope_poly_getnoise newhope_poly_ntt
     newhope_poly_invntt newhope_poly_pointwise newhope_poly_add
     newhope_poly_uniform newhope_poly_tobytes NEWHOPE_POLY_frombytes
     newhope_helprec newhope_reconcile SHA256_Init SHA256_Update SHA256_Final).
#[local] Abbreviation finish :=
  (NEWHOPE_finish (rng := rng) newhope_poly_invntt newhope_poly_pointwise
     NEWHOPE_POLY_frombytes newhope_reconcile
     SHA256_Init SHA256_Update SHA256_Final).
#[local] Abbreviation accept_secret :=
  (accept_raw_secret RAND_bytes newhope_poly_getnoise newhope_poly_ntt
     newhope_poly_invntt newhope_poly_pointwise newhope_poly_add
     newhope_poly_uniform NEWHOPE_POLY_frombytes newhope_helprec
     newhope_reconcile).
#[local] Abbreviation finish_secret :=
  (finish_raw_secret newhope_poly_invntt newhope_poly_pointwise
     NEWHOPE_POLY_frombytes newhope_reconcile).

(** One step of a computation in [M]: name the result and the next state of
    the call that is run first. *)
Ltac run_step :=
  match goal with
  | |- context [let (_, _) := ?m ?g in _] => destruct (m g) as [? ?] eqn:?
  end.

Ltac run := unfold bind, ret; repeat run_step; simpl.

(** [NEWHOPE_accept] past its length check, in terms of the responder's raw
    secret: the return value and the key buffer depend on it only through
    the hash. *)
Lemma accept_by_raw_secret key acceptmsg offermsg g :
  let r := fst (accept key acceptmsg offermsg NEWHOPE_OFFERMSG_LENGTH g) in
  let k := fst (accept_secret offermsg g) in
  accept_ret r = (match hash k with Some _ => 1 | None => 0 end) /\
  accept_key r = (match hash k with Some d => store_bytes d key | None => key end).
Proof using Type.
  unfold NEWHOPE_accept, accept_from, accept_raw_secret, NEWHOPE_accept_computation.
  rewrite Nat.eqb_refl. simpl. run.
  destruct (hash _); simpl; done.
Qed.

Lemma finish_by_raw_secret c_init key sk acceptmsg (g : rng) :
  finish c_init key sk acceptmsg NEWHOPE_ACCEPTMSG_LENGTH g =
  (match hash (finish_secret c_init sk acceptmsg) with
   | Some d => mkFinish 1 (store_bytes d key)
   | None => mkFinish 0 key
   end, g).
Proof using Type.
  unfold NEWHOPE_finish, finish_raw_secret. rewrite Nat.eqb_refl. simpl.
  destruct (hash _); done.
Qed.

Lemma hash_digest_length k d :
  (forall ctx d, SHA256_Final ctx = Some d -> length d = SHA256_DIGEST_LENGTH) ->
  hash k = Some d -> length d = SHA256_DIGEST_LENGTH.
Proof using Type.
  intros Hfinal. unfold sha256_of_key.
  destruct SHA256_Init as [ctx|]; [|done].
  destruct (SHA256_Update ctx _) as [ctx'|]; [|done].
  apply Hfinal.
Qed.

(** C2: a message length other than the expected constant makes the
    operation fail (return 0), for [NEWHOPE_accept] against
    [NEWHOPE_OFFERMSG_LENGTH] and for [NEWHOPE_finish] against
    [NEWHOPE_ACCEPTMSG_LENGTH]; conversely a call succeeds only with the
    expected length, and with the expected length the only failure left is a
    failing hash, so that with a working hash the call succeeds exactly when
    the length is the expected one. *)
Theorem length_rejection key acceptmsg offermsg c_init sk (msg_len : nat) (g : rng) :
  let ra := fst (accept key acceptmsg offermsg msg_len g) in
  let rf := fst (finish c_init key sk acceptmsg msg_len g) in
  (msg_len <> NEWHOPE_OFFERMSG_LENGTH -> accept_ret ra = 0) /\
  (msg_len <> NEWHOPE_ACCEPTMSG_LENGTH -> finish_ret rf = 0) /\
  (accept_ret ra = 1 -> msg_len = NEWHOPE_OFFERMSG_LENGTH) /\
  (finish_ret rf = 1 -> msg_len = NEWHOPE_ACCEPTMSG_LENGTH) /\
  ((forall k, is_Some (hash k)) ->
     (accept_ret ra = 1 <-> msg_len = NEWHOPE_OFFERMSG_LENGTH) /\
     (finish_ret rf = 1 <-> msg_len = NEWHOPE_ACCEPTMSG_LENGTH)).
Proof using Type.
  intros ra rf.
  assert (A0 : msg_len <> NEWHOPE_OFFERMSG_LENGTH -> accept_ret ra = 0).
  { intros Hne. unfold ra, NEWHOPE_accept.
    apply Nat.eqb_neq in Hne. by rewrite Hne. }
  assert (F0 : msg_len <> NEWHOPE_ACCEPTMSG_LENGTH -> finish_ret rf = 0).
  { intros Hne. unfold rf, NEWHOPE_finish.
    apply Nat.eqb_neq in Hne. by rewrite Hne. }
  assert (A1 : accept_ret ra = 1 -> msg_len = NEWHOPE_OFFERMSG_LENGTH).
  { intros H1. destruct (decide (msg_len = NEWHOPE_OFFERMSG_LENGTH)) as [|Hne]; [done|].
    rewrite (A0 Hne) in H1. done. }
  assert (F1 : finish_ret rf = 1 -> msg_len = NEWHOPE_ACCEPTMSG_LENGTH).
  { intros H1. destruct (decide (msg_len = NEWHOPE_ACCEPTMSG_LENGTH)) as [|Hne]; [done|].
    rewrite (F0 Hne) in H1. done. }
  do 4 (split; [done|]).
  intros Hhash. split; (split; [done|]).
  - intros ->. unfold ra.
    destruct (accept_by_raw_secret key acceptmsg offermsg g) as [-> _].
    destruct (Hhash (fst (accept_secret offermsg g))) as [d ->]. done.
  - intros ->. unfold rf. rewrite finish_by_raw_secret.
    destruct (Hhash (finish_secret c_init sk acceptmsg)) as [d ->]. done.
Qed.

(** C8: with a wrong message length nothing is processed: the call returns 0,
    the key buffer and (for accept) the accept message buffer hold what they
    held, and the state of the random byte source is the one of the call. *)
Theorem wrong_length_no_effect key acceptmsg offermsg c_init sk (msg_len : nat) (g : rng) :
  (msg_len <> NEWHOPE_OFFERMSG_LENGTH ->
     accept key acceptmsg offermsg msg_len g = (mkAccept 0 key acceptmsg, g)) /\
  (msg_len <> NEWHOPE_ACCEPTMSG_LENGTH ->
     finish c_init key sk acceptmsg msg_len g = (mkFinish 0 key, g)).
Proof using Type.
  split; intros Hne; apply Nat.eqb_neq in Hne.
  - unfold NEWHOPE_accept. by rewrite Hne.
  - unfold NEWHOPE_finish. by rewrite Hne.
Qed.

(** C3: from any state, [NEWHOPE_accept_computation] draws the error [e']
    and returns [bp = a * s' + e'] (pointwise product, then sum, in the
    transform domain), and with [v = invntt (pk * s') + e''] the hint
    [helprec v rand] and the raw secret [reconcile v hint]. *)
Theorem accept_computation_spec (sp epp : NEWHOPE_POLY) (rand : list Z)
    (pk a : NEWHOPE_POLY) (g : rng) :
  let ep := newhope_poly_ntt (fst (newhope_poly_getnoise g)) in
  let bp := newhope_poly_add (newhope_poly_pointwise a sp) ep in
  let v := newhope_poly_add (newhope_poly_invntt (newhope_poly_pointwise pk sp)) epp in
  let hint := newhope_helprec v rand in
  let out := fst (accept_computation sp epp rand pk a g) in
  comp_bp out = bp /\
  comp_reconciliation out = hint /\
  comp_k out = newhope_reconcile v hint /\
  snd (accept_computation sp epp rand pk a g) = snd (newhope_poly_getnoise g).
Proof using Type.
  unfold NEWHOPE_accept_computation, bind, ret.
  destruct (newhope_poly_getnoise g) as [ep0 g']. simpl. done.
Qed.

(** C4: on an accept message of the expected length, [NEWHOPE_finish] decodes
    [bp] from the start of the message and the hint from the bytes behind
    the packed ring element, computes [v' = invntt (sk * bp)], reconciles
    [v'] with the hint, and returns 1 with the hash of that raw secret as the
    32-byte session key; the hint it decodes is a valid one whatever the
    bytes are. *)
Theorem finish_spec c_init key sk acceptmsg (g : rng) digest :
  is_bytes acceptmsg -> length acceptmsg = NEWHOPE_ACCEPTMSG_LENGTH ->
  poly_wf c_init -> length key = SHA256_DIGEST_LENGTH ->
  (forall ctx d, SHA256_Final ctx = Some d -> length d = SHA256_DIGEST_LENGTH) ->
  let bp := NEWHOPE_POLY_frombytes acceptmsg in
  let hint := decode_rec (drop NEWHOPE_POLY_LENGTH acceptmsg) c_init in
  let v' := newhope_poly_invntt (newhope_poly_pointwise sk bp) in
  let raw_secret := newhope_reconcile v' hint in
  hash raw_secret = Some digest ->
  is_hint hint /\
  finish c_init key sk acceptmsg NEWHOPE_ACCEPTMSG_LENGTH g = (mkFinish 1 digest, g) /\
  length digest = 32%nat.
Proof using Type.
  intros Hbytes Hlen Hc Hkey Hfinal bp hint v' raw_secret Hhash.
  pose proof (hash_digest_length _ _ Hfinal Hhash) as Hd.
  split; [|split; [|done]].
  - apply decode_rec_is_hint; [|rewrite length_drop, Hlen; reflexivity|done].
    by apply Forall_drop.
  - rewrite finish_by_raw_secret. unfold finish_raw_secret, NEWHOPE_finish_computation.
    fold bp hint v' raw_secret. rewrite Hhash.
    rewrite store_bytes_full; [done | by rewrite Hd, Hkey].
Qed.

(** C10: [NEWHOPE_finish] is a function of the secret key and the accept
    message: two runs on the same [sk], message and length, started in any
    two states of the random byte source, with any contents of the key
    buffer and of the local [c], leave the random byte source untouched,
    return the same value and, when they succeed, the same session key. *)
Theorem finish_deterministic c1 c2 key1 key2 sk acceptmsg (msg_len : nat) (g1 g2 : rng) :
  poly_wf c1 -> poly_wf c2 ->
  length key1 = SHA256_DIGEST_LENGTH -> length key2 = SHA256_DIGEST_LENGTH ->
  (forall ctx d, SHA256_Final ctx = Some d -> length d = SHA256_DIGEST_LENGTH) ->
  let r1 := finish c1 key1 sk acceptmsg msg_len g1 in
  let r2 := finish c2 key2 sk acceptmsg msg_len g2 in
  snd r1 = g1 /\ snd r2 = g2 /\
  finish_ret (fst r1) = finish_ret (fst r2) /\
  (finish_ret (fst r1) = 1 -> finish_key (fst r1) = finish_key (fst r2)).
Proof using Type.
  intros Hc1 Hc2 Hk1 Hk2 Hfinal r1 r2. unfold r1, r2, NEWHOPE_finish.
  destruct (negb (msg_len =? NEWHOPE_ACCEPTMSG_LENGTH)%nat); [by simpl|].
  simpl. rewrite (decode_rec_init_irrelevant _ c1 c2 Hc1 Hc2).
  destruct (hash _) as [d|] eqn:Hd; simpl; [|done].
  pose proof (hash_digest_length _ _ Hfinal Hd) as Hlen.
  rewrite !store_bytes_full; [done | by rewrite Hlen, Hk2 | by rewrite Hlen, Hk1].
Qed.

(** C7: [NEWHOPE_offer] leaves in the offer buffer the packed ring element
    [pk = a * s + e] in the first [NEWHOPE_POLY_LENGTH] bytes and the 32-byte
    seed behind it, and returns [s]; [NEWHOPE_accept] expands [a] from the
    bytes at offset [NEWHOPE_POLY_LENGTH], which are that seed, and unpacks
    [pk] from offset 0.  The code forms [pk] as [e + s * a]; this is
    [a * s + e] as soon as the two ring operations commute. *)
Theorem offer_message_layout offermsg0 (g g1 g2 g3 : rng) s0 seed e0 key acceptmsg :
  newhope_poly_getnoise g = (s0, g1) ->
  RAND_bytes SEED_LENGTH g1 = (seed, g2) ->
  newhope_poly_getnoise g2 = (e0, g3) ->
  let s := newhope_poly_ntt s0 in
  let e := newhope_poly_ntt e0 in
  let a := newhope_poly_uniform seed in
  let pk := newhope_poly_add e (newhope_poly_pointwise s a) in
  let offermsg := newhope_poly_tobytes pk ++ seed in
  length offermsg0 = NEWHOPE_OFFERMSG_LENGTH ->
  length seed = SEED_LENGTH ->
  length (newhope_poly_tobytes pk) = NEWHOPE_POLY_LENGTH ->
  offer offermsg0 g = (offermsg, s, g3) /\
  take NEWHOPE_POLY_LENGTH offermsg = newhope_poly_tobytes pk /\
  drop NEWHOPE_POLY_LENGTH offermsg = seed /\
  length offermsg = NEWHOPE_OFFERMSG_LENGTH /\
  accept key acceptmsg offermsg NEWHOPE_OFFERMSG_LENGTH =
    accept_tail (NEWHOPE_POLY_frombytes offermsg) a key acceptmsg /\
  ((forall x y, newhope_poly_add x y = newhope_poly_add y x) ->
   (forall x y, newhope_poly_pointwise x y = newhope_poly_pointwise y x) ->
   pk = newhope_poly_add (newhope_poly_pointwise a s) e).
Proof using Type.
  intros Hs Hseed He s e a pk offermsg Hbuf Hlen Hpk.
  destruct (offer_buffer_layout (newhope_poly_tobytes pk) seed offermsg0 Hbuf Hlen Hpk)
    as [Hdrop Hstore].
  assert (Hd : drop NEWHOPE_POLY_LENGTH offermsg = seed).
  { unfold offermsg. by apply drop_app_length'. }
  split; [|split; [|split; [|split; [|split]]]].
  - unfold NEWHOPE_offer, bind, ret. rewrite Hs, Hseed. cbv zeta.
    rewrite Hdrop. fold s a. rewrite He. fold e pk. by rewrite Hstore.
  - unfold offermsg. by apply take_app_length'.
  - done.
  - unfold offermsg. rewrite length_app, Hpk, Hlen. reflexivity.
  - unfold NEWHOPE_accept. rewrite Nat.eqb_refl. simpl. by rewrite Hd.
  - intros Hadd Hmul. unfold pk. by rewrite Hadd, (Hmul s a).
Qed.

(** C1: wire the three calls together (the offer message into
    [NEWHOPE_accept], the accept message and the secret key of the offer
    into [NEWHOPE_finish]).  Whenever the raw secret the initiator
    reconciles equals the raw secret of the responder, both calls return the
    same value, and with a hash that succeeds both return 1 and leave the
    same 32-byte session key, the hash of that raw secret. *)
Theorem handshake_agreement offermsg0 keyB0 acceptmsg0 keyA0 c_init
    (gA gA' gA'' gB gB' : rng) offermsg sk rB rA :
  (forall ctx d, SHA256_Final ctx = Some d -> length d = SHA256_DIGEST_LENGTH) ->
  length keyA0 = SHA256_DIGEST_LENGTH -> length keyB0 = SHA256_DIGEST_LENGTH ->
  offer offermsg0 gA = (offermsg, sk, gA') ->
  accept keyB0 acceptmsg0 offermsg NEWHOPE_OFFERMSG_LENGTH gB = (rB, gB') ->
  finish c_init keyA0 sk (accept_msg rB) NEWHOPE_ACCEPTMSG_LENGTH gA' = (rA, gA'') ->
  finish_secret c_init sk (accept_msg rB) = fst (accept_secret offermsg gB) ->
  finish_ret rA = accept_ret rB /\
  (accept_ret rB = 1 ->
     finish_key rA = accept_key rB /\ length (accept_key rB) = 32%nat) /\
  (forall d, hash (fst (accept_secret offermsg gB)) = Some d ->
     accept_ret rB = 1 /\ finish_ret rA = 1 /\
     accept_key rB = d /\ finish_key rA = d /\ length d = 32%nat).
Proof using Type.
  intros Hfinal HkA HkB Hoffer Haccept Hfinish Hraw.
  destruct (accept_by_raw_secret keyB0 acceptmsg0 offermsg gB) as [Hret Hkey].
  rewrite Haccept in Hret, Hkey. simpl in Hret, Hkey.
  rewrite finish_by_raw_secret, Hraw in Hfinish.
  destruct (hash (fst (accept_secret offermsg gB))) as [d|] eqn:Hd.
  - pose proof (hash_digest_length _ _ Hfinal Hd) as Hlen.
    rewrite store_bytes_full in Hkey; [|by rewrite Hlen, HkB].
    rewrite store_bytes_full in Hfinish; [|by rewrite Hlen, HkA].
    injection Hfinish as <- _. simpl. rewrite Hret, Hkey.
    split; [done|]. split; [done|].
    intros d' [= <-]. done.
  - injection Hfinish as <- _. simpl. rewrite Hret.
    split; [done|]. split; [done|]. intros d' [=].
Qed.

(** [NEWHOPE_accept] past its length check, with the four draws named in
    the order the code makes them. *)
Lemma accept_run key acceptmsg offermsg (g g1 g2 g3 g4 : rng) sp0 epp rand ep0 :
  newhope_poly_getnoise g = (sp0, g1) ->
  newhope_poly_getnoise g1 = (epp, g2) ->
  RAND_bytes 32 g2 = (rand, g3) ->
  newhope_poly_getnoise g3 = (ep0, g4) ->
  let sp := newhope_poly_ntt sp0 in
  let ep := newhope_poly_ntt ep0 in
  let a := newhope_poly_uniform (drop NEWHOPE_POLY_LENGTH offermsg) in
  let pk := NEWHOPE_POLY_frombytes offermsg in
  let bp := newhope_poly_add (newhope_poly_pointwise a sp) ep in
  let v := newhope_poly_add (newhope_poly_invntt (newhope_poly_pointwise pk sp)) epp in
  let hint := newhope_helprec v rand in
  let k := newhope_reconcile v hint in
  let msg := at_offset NEWHOPE_POLY_LENGTH (encode_rec hint)
               (store_bytes (newhope_poly_tobytes bp) acceptmsg) in
  accept key acceptmsg offermsg NEWHOPE_OFFERMSG_LENGTH g =
    (match hash k with
     | Some d => mkAccept 1 (store_bytes d key) msg
     | None => mkAccept 0 key msg
     end, g4) /\
  accept_secret offermsg g = (k, g4).
Proof using Type.
  intros H1 H2 H3 H4 sp ep a pk bp v hint k msg.
  unfold NEWHOPE_accept, accept_from, accept_raw_secret, NEWHOPE_accept_computation,
    bind, ret.
  rewrite Nat.eqb_refl. simpl.
  rewrite H1. simpl. rewrite H2. simpl. rewrite H3. simpl. rewrite H4. simpl.
  fold sp ep a pk. fold bp v. fold hint. fold k. fold msg.
  split; [|done]. by destruct (hash k).
Qed.

(** X4: what [NEWHOPE_accept] does on an offer message of the expected
    length.  It draws [s'], [e''], 32 random bytes and [e'], in this order;
    it leaves in the accept buffer the packed [bp = a * s' + e'] followed by
    the [PARAM_N / 4] bytes of the packed hint, [NEWHOPE_ACCEPTMSG_LENGTH]
    bytes in all; and when the hash succeeds it returns 1 with the digest of
    the raw secret in the key buffer. *)
Theorem accept_spec key acceptmsg offermsg (g g1 g2 g3 g4 : rng) sp0 epp rand ep0 digest :
  newhope_poly_getnoise g = (sp0, g1) ->
  newhope_poly_getnoise g1 = (epp, g2) ->
  RAND_bytes 32 g2 = (rand, g3) ->
  newhope_poly_getnoise g3 = (ep0, g4) ->
  let sp := newhope_poly_ntt sp0 in
  let ep := newhope_poly_ntt ep0 in
  let a := newhope_poly_uniform (drop NEWHOPE_POLY_LENGTH offermsg) in
  let pk := NEWHOPE_POLY_frombytes offermsg in
  let bp := newhope_poly_add (newhope_poly_pointwise a sp) ep in
  let v := newhope_poly_add (newhope_poly_invntt (newhope_poly_pointwise pk sp)) epp in
  let hint := newhope_helprec v rand in
  let packed_hint := encode_rec hint (drop NEWHOPE_POLY_LENGTH acceptmsg) in
  length acceptmsg = NEWHOPE_ACCEPTMSG_LENGTH ->
  length (newhope_poly_tobytes bp) = NEWHOPE_POLY_LENGTH ->
  length key = SHA256_DIGEST_LENGTH ->
  (forall ctx d, SHA256_Final ctx = Some d -> length d = SHA256_DIGEST_LENGTH) ->
  hash (newhope_reconcile v hint) = Some digest ->
  accept key acceptmsg offermsg NEWHOPE_OFFERMSG_LENGTH g =
    (mkAccept 1 digest (newhope_poly_tobytes bp ++ packed_hint), g4) /\
  length (newhope_poly_tobytes bp ++ packed_hint) = NEWHOPE_ACCEPTMSG_LENGTH /\
  length packed_hint = (PARAM_N / 4)%nat.
Proof using Type.
  intros H1 H2 H3 H4 sp ep a pk bp v hint packed_hint Hmsg Hbp Hkey Hfinal Hhash.
  destruct (accept_run key acceptmsg offermsg g g1 g2 g3 g4 sp0 epp rand ep0 H1 H2 H3 H4)
    as [Hrun _].
  fold sp ep a pk bp v hint in Hrun.
  destruct (accept_buffer_layout (newhope_poly_tobytes bp) acceptmsg (encode_rec hint)
              Hmsg Hbp) as [Hlayout Hdrop].
  assert (Hph : length packed_hint = (PARAM_N / 4)%nat).
  { unfold packed_hint. by rewrite length_encode_rec. }
  split; [|split; [|done]].
  - rewrite Hrun, Hhash, Hlayout. fold packed_hint.
    rewrite store_bytes_full; [done|].
    by rewrite (hash_digest_length _ _ Hfinal Hhash), Hkey.
  - by apply packed_message_length.
Qed.

(** X5: a failing hash is detected after the work is done: on an offer
    message of the expected length [NEWHOPE_accept] then returns 0, but the
    accept buffer already holds the packed [bp] and hint, and the four draws
    have been consumed. *)
Theorem accept_hash_failure key acceptmsg offermsg (g g1 g2 g3 g4 : rng) sp0 epp rand ep0 :
  newhope_poly_getnoise g = (sp0, g1) ->
  newhope_poly_getnoise g1 = (epp, g2) ->
  RAND_bytes 32 g2 = (rand, g3) ->
  newhope_poly_getnoise g3 = (ep0, g4) ->
  let sp := newhope_poly_ntt sp0 in
  let ep := newhope_poly_ntt ep0 in
  let a := newhope_poly_uniform (drop NEWHOPE_POLY_LENGTH offermsg) in
  let pk := NEWHOPE_POLY_frombytes offermsg in
  let bp := newhope_poly_add (newhope_poly_pointwise a sp) ep in
  let v := newhope_poly_add (newhope_poly_invntt (newhope_poly_pointwise pk sp)) epp in
  let hint := newhope_helprec v rand in
  let packed_hint := encode_rec hint (drop NEWHOPE_POLY_LENGTH acceptmsg) in
  let r := accept key acceptmsg offermsg NEWHOPE_OFFERMSG_LENGTH g in
  length acceptmsg = NEWHOPE_ACCEPTMSG_LENGTH ->
  length (newhope_poly_tobytes bp) = NEWHOPE_POLY_LENGTH ->
  hash (newhope_reconcile v hint) = None ->
  accept_ret (fst r) = 0 /\
  accept_msg (fst r) = newhope_poly_tobytes bp ++ packed_hint /\
  snd r = g4.
Proof using Type.
  intros H1 H2 H3 H4 sp ep a pk bp v hint packed_hint r Hmsg Hbp Hhash.
  destruct (accept_run key acceptmsg offermsg g g1 g2 g3 g4 sp0 epp rand ep0 H1 H2 H3 H4)
    as [Hrun _].
  fold sp ep a pk bp v hint in Hrun.
  destruct (accept_buffer_layout (newhope_poly_tobytes bp) acceptmsg (encode_rec hint)
              Hmsg Hbp) as [Hlayout _].
  unfold r. rewrite Hrun, Hhash, Hlayout. done.
Qed.

(** X6: the bytes the accept message carries are all that [NEWHOPE_finish]
    needs of the responder's hint: on a message made of a packed ring element
    and the packed form of a hint, the initiator reconciles
    [invntt (sk * bp')] against that very hint, where [bp'] is what
    [NEWHOPE_POLY_frombytes] reads from the message; when the ring element
    codec gives [bp] back, this is [reconcile (invntt (sk * bp)) hint]. *)
Theorem finish_recovers_hint c_init sk bp hint (buf : list Z) :
  let acceptmsg := newhope_poly_tobytes bp ++ encode_rec hint buf in
  is_hint hint -> poly_wf c_init ->
  length buf = (PARAM_N / 4)%nat ->
  length (newhope_poly_tobytes bp) = NEWHOPE_POLY_LENGTH ->
  decode_rec (drop NEWHOPE_POLY_LENGTH acceptmsg) c_init = hint /\
  finish_secret c_init sk acceptmsg =
    newhope_reconcile
      (newhope_poly_invntt (newhope_poly_pointwise sk (NEWHOPE_POLY_frombytes acceptmsg)))
      hint /\
  (NEWHOPE_POLY_frombytes acceptmsg = bp ->
   finish_secret c_init sk acceptmsg =
     newhope_reconcile (newhope_poly_invntt (newhope_poly_pointwise sk bp)) hint).
Proof using Type.
  intros acceptmsg Hh Hc Hbuf Hbp.
  assert (Hd : decode_rec (drop NEWHOPE_POLY_LENGTH acceptmsg) c_init = hint).
  { unfold acceptmsg. rewrite drop_app_length' by done.
    apply decode_of_encode; [done | by rewrite Hbuf | done]. }
  split; [done|].
  assert (Hs : finish_secret c_init sk acceptmsg =
               newhope_reconcile
                 (newhope_poly_invntt
                    (newhope_poly_pointwise sk (NEWHOPE_POLY_frombytes acceptmsg))) hint).
  { unfold finish_raw_secret, NEWHOPE_finish_computation. by rewrite Hd. }
  split; [done|]. intros Hfb. by rewrite Hs, Hfb.
Qed.

(** X7: no stale byte reaches the wire or the key: with callees that write
    the announced number of bytes, the offer message, the accept message and,
    on success, the session key are the same whatever the caller's buffers
    held before, as are the return value and the draws. *)
Theorem no_stale_bytes offermsg1 offermsg2 key1 key2 acceptmsg1 acceptmsg2 offermsg
    (gA gB : rng) :
  (forall n g, length (fst (RAND_bytes n g)) = n) ->
  (forall p, length (newhope_poly_tobytes p) = NEWHOPE_POLY_LENGTH) ->
  (forall ctx d, SHA256_Final ctx = Some d -> length d = SHA256_DIGEST_LENGTH) ->
  length offermsg1 = NEWHOPE_OFFERMSG_LENGTH ->
  length offermsg2 = NEWHOPE_OFFERMSG_LENGTH ->
  length acceptmsg1 = NEWHOPE_ACCEPTMSG_LENGTH ->
  length acceptmsg2 = NEWHOPE_ACCEPTMSG_LENGTH ->
  length key1 = SHA256_DIGEST_LENGTH -> length key2 = SHA256_DIGEST_LENGTH ->
  let r1 := accept key1 acceptmsg1 offermsg NEWHOPE_OFFERMSG_LENGTH gB in
  let r2 := accept key2 acceptmsg2 offermsg NEWHOPE_OFFERMSG_LENGTH gB in
  offer offermsg1 gA = offer offermsg2 gA /\
  accept_msg (fst r1) = accept_msg (fst r2) /\
  accept_ret (fst r1) = accept_ret (fst r2) /\
  snd r1 = snd r2 /\
  (accept_ret (fst r1) = 1 -> accept_key (fst r1) = accept_key (fst r2)).
Proof using Type.
  intros Hrand Hpack Hfinal Ho1 Ho2 Ha1 Ha2 Hk1 Hk2 r1 r2.
  split.
  - unfold NEWHOPE_offer, bind, ret.
    destruct (newhope_poly_getnoise gA) as [s0 g1].
    pose proof (Hrand SEED_LENGTH g1) as Hseed.
    destruct (RAND_bytes SEED_LENGTH g1) as [seed g2]. simpl in Hseed.
    destruct (offer_buffer_layout (newhope_poly_tobytes s0) seed offermsg1 Ho1 Hseed
                (Hpack s0)) as [Hd1 _].
    destruct (offer_buffer_layout (newhope_poly_tobytes s0) seed offermsg2 Ho2 Hseed
                (Hpack s0)) as [Hd2 _].
    cbv zeta in Hd1, Hd2. rewrite Hd1, Hd2.
    destruct (newhope_poly_getnoise g2) as [e0 g3].
    set (pk := newhope_poly_add (newhope_poly_ntt e0)
                 (newhope_poly_pointwise (newhope_poly_ntt s0)
                    (newhope_poly_uniform seed))).
    destruct (offer_buffer_layout (newhope_poly_tobytes pk) seed offermsg1 Ho1 Hseed
                (Hpack pk)) as [_ Hs1].
    destruct (offer_buffer_layout (newhope_poly_tobytes pk) seed offermsg2 Ho2 Hseed
                (Hpack pk)) as [_ Hs2].
    cbv zeta in Hs1, Hs2. by rewrite Hs1, Hs2.
  - destruct (newhope_poly_getnoise gB) as [sp0 g1] eqn:H1.
    destruct (newhope_poly_getnoise g1) as [epp g2] eqn:H2.
    destruct (RAND_bytes 32 g2) as [rand g3] eqn:H3.
    destruct (newhope_poly_getnoise g3) as [ep0 g4] eqn:H4.
    destruct (accept_run key1 acceptmsg1 offermsg gB g1 g2 g3 g4 sp0 epp rand ep0
                H1 H2 H3 H4) as [Hr1 _].
    destruct (accept_run key2 acceptmsg2 offermsg gB g1 g2 g3 g4 sp0 epp rand ep0
                H1 H2 H3 H4) as [Hr2 _].
    cbv zeta in Hr1, Hr2. unfold r1, r2. rewrite Hr1, Hr2.
    set (sp := newhope_poly_ntt sp0).
    set (bp := newhope_poly_add _ (newhope_poly_ntt ep0)).
    set (v := newhope_poly_add _ epp).
    destruct (accept_buffer_layout (newhope_poly_tobytes bp) acceptmsg1
                (encode_rec (newhope_helprec v rand)) Ha1 (Hpack bp)) as [-> Hl1].
    destruct (accept_buffer_layout (newhope_poly_tobytes bp) acceptmsg2
                (encode_rec (newhope_helprec v rand)) Ha2 (Hpack bp)) as [-> Hl2].
    rewrite (encode_rec_init_irrelevant _ _ _ Hl1 Hl2).
    destruct (hash _) as [d|] eqn:Hd; simpl; [|done].
    pose proof (hash_digest_length _ _ Hfinal Hd) as Hlen.
    rewrite !store_bytes_full; [done | by rewrite Hlen, Hk2 | by rewrite Hlen, Hk1].
Qed.

Lemma noise_algebra s e a sp ep epp :
  (forall x y, newhope_poly_add x y = newhope_poly_add y x) ->
  (forall x y z, newhope_poly_add x (newhope_poly_add y z) =
                 newhope_poly_add (newhope_poly_add x y) z) ->
  (forall x y, newhope_poly_pointwise x y = newhope_poly_pointwise y x) ->
  (forall x y z, newhope_poly_pointwise x (newhope_poly_pointwise y z) =
                 newhope_poly_pointwise (newhope_poly_pointwise x y) z) ->
  (forall x y z, newhope_poly_pointwise (newhope_poly_add x y) z =
                 newhope_poly_add (newhope_poly_pointwise x z)
                                  (newhope_poly_pointwise y z)) ->
  (forall x y, newhope_poly_invntt (newhope_poly_add x y) =
               newhope_poly_add (newhope_poly_invntt x) (newhope_poly_invntt y)) ->
  let pk := newhope_poly_add e (newhope_poly_pointwise s a) in
  let bp := newhope_poly_add (newhope_poly_pointwise a sp) ep in
  let v := newhope_poly_add (newhope_poly_invntt (newhope_poly_pointwise pk sp)) epp in
  let v' := newhope_poly_invntt (newhope_poly_pointwise s bp) in
  newhope_poly_add v (newhope_poly_invntt (newhope_poly_pointwise s ep)) =
  newhope_poly_add
    (newhope_poly_add v' (newhope_poly_invntt (newhope_poly_pointwise e sp))) epp.
Proof using Type.
  intros Hac Haa Hmc Hma Hd Hi pk bp v v'. unfold v, v', pk, bp.
  rewrite Hd, Hi.
  rewrite (Hmc s (newhope_poly_add (newhope_poly_pointwise a sp) ep)), Hd, Hi.
  rewrite (Hmc (newhope_poly_pointwise a sp) s), (Hma s a sp), (Hmc ep s).
  set (E := newhope_poly_invntt (newhope_poly_pointwise e sp)).
  set (X := newhope_poly_invntt
              (newhope_poly_pointwise (newhope_poly_pointwise s a) sp)).
  set (S := newhope_poly_invntt (newhope_poly_pointwise s ep)).
  rewrite <- (Haa (newhope_poly_add E X) epp S), (Hac epp S).
  rewrite (Haa (newhope_poly_add E X) S epp).
  rewrite (Hac (newhope_poly_add X S) E), (Haa E X S). done.
Qed.

(** X8: the wiring is the one the ring identity needs.  Run offer, then
    accept on the offer message, then finish on the accept message; let the
    ring operations be those of a commutative ring, the inverse transform
    additive, and the ring element codec give [pk] and [bp] back from the two
    messages, and let [helprec] return a hint.  Then the responder reconciles
    [v = invntt (pk * s') + e''], the initiator reconciles
    [v' = invntt (s * bp)] against the same hint, and the two differ by noise
    terms only: [v + invntt (s * e') = v' + invntt (e * s') + e'']. *)
Theorem handshake_noise_identity offermsg0 keyB0 acceptmsg0 c_init
    (gA gA1 gA2 gA3 gB gB1 gB2 gB3 gB4 : rng) s0 seed e0 sp0 epp rand ep0 :
  (forall x y, newhope_poly_add x y = newhope_poly_add y x) ->
  (forall x y z, newhope_poly_add x (newhope_poly_add y z) =
                 newhope_poly_add (newhope_poly_add x y) z) ->
  (forall x y, newhope_poly_pointwise x y = newhope_poly_pointwise y x) ->
  (forall x y z, newhope_poly_pointwise x (newhope_poly_pointwise y z) =
                 newhope_poly_pointwise (newhope_poly_pointwise x y) z) ->
  (forall x y z, newhope_poly_pointwise (newhope_poly_add x y) z =
                 newhope_poly_add (newhope_poly_pointwise x z)
                                  (newhope_poly_pointwise y z)) ->
  (forall x y, newhope_poly_invntt (newhope_poly_add x y) =
               newhope_poly_add (newhope_poly_invntt x) (newhope_poly_invntt y)) ->
  newhope_poly_getnoise gA = (s0, gA1) ->
  RAND_bytes SEED_LENGTH gA1 = (seed, gA2) ->
  newhope_poly_getnoise gA2 = (e0, gA3) ->
  newhope_poly_getnoise gB = (sp0, gB1) ->
  newhope_poly_getnoise gB1 = (epp, gB2) ->
  RAND_bytes 32 gB2 = (rand, gB3) ->
  newhope_poly_getnoise gB3 = (ep0, gB4) ->
  let s := newhope_poly_ntt s0 in
  let e := newhope_poly_ntt e0 in
  let a := newhope_poly_uniform seed in
  let pk := newhope_poly_add e (newhope_poly_pointwise s a) in
  let sp := newhope_poly_ntt sp0 in
  let ep := newhope_poly_ntt ep0 in
  let bp := newhope_poly_add (newhope_poly_pointwise a sp) ep in
  let v := newhope_poly_add (newhope_poly_invntt (newhope_poly_pointwise pk sp)) epp in
  let v' := newhope_poly_invntt (newhope_poly_pointwise s bp) in
  let hint := newhope_helprec v rand in
  let offermsg := newhope_poly_tobytes pk ++ seed in
  let acceptmsg :=
    newhope_poly_tobytes bp ++ encode_rec hint (drop NEWHOPE_POLY_LENGTH acceptmsg0) in
  length offermsg0 = NEWHOPE_OFFERMSG_LENGTH ->
  length seed = SEED_LENGTH ->
  length (newhope_poly_tobytes pk) = NEWHOPE_POLY_LENGTH ->
  length acceptmsg0 = NEWHOPE_ACCEPTMSG_LENGTH ->
  length (newhope_poly_tobytes bp) = NEWHOPE_POLY_LENGTH ->
  NEWHOPE_POLY_frombytes offermsg = pk ->
  NEWHOPE_POLY_frombytes acceptmsg = bp ->
  is_hint hint -> poly_wf c_init ->
  offer offermsg0 gA = (offermsg, s, gA3) /\
  accept_msg (fst (accept keyB0 acceptmsg0 offermsg NEWHOPE_OFFERMSG_LENGTH gB)) =
    acceptmsg /\
  fst (accept_secret offermsg gB) = newhope_reconcile v hint /\
  finish_secret c_init s acceptmsg = newhope_reconcile v' hint /\
  newhope_poly_add v (newhope_poly_invntt (newhope_poly_pointwise s ep)) =
  newhope_poly_add
    (newhope_poly_add v' (newhope_poly_invntt (newhope_poly_pointwise e sp))) epp.
Proof using Type.
  intros Hac Haa Hmc Hma Hd Hi HA1 HA2 HA3 HB1 HB2 HB3 HB4
    s e a pk sp ep bp v v' hint offermsg acceptmsg
    Hob Hseed Hpk Hab Hbp Hfo Hfa Hhint Hc.
  destruct (offer_buffer_layout (newhope_poly_tobytes pk) seed offermsg0 Hob Hseed Hpk)
    as [Hdrop Hstore].
  assert (Hds : drop NEWHOPE_POLY_LENGTH offermsg = seed).
  { unfold offermsg. by apply drop_app_length'. }
  destruct (accept_run keyB0 acceptmsg0 offermsg gB gB1 gB2 gB3 gB4 sp0 epp rand ep0
              HB1 HB2 HB3 HB4) as [Hrun Hsec].
  cbv zeta in Hrun, Hsec. rewrite Hds, Hfo in Hrun. rewrite Hfo in Hsec.
  fold a sp ep in Hrun, Hsec. fold bp v in Hrun, Hsec. fold hint in Hrun, Hsec.
  destruct (accept_buffer_layout (newhope_poly_tobytes bp) acceptmsg0 (encode_rec hint)
              Hab Hbp) as [Hlayout Hlen].
  split; [|split; [|split; [|split]]].
  - unfold NEWHOPE_offer, bind, ret. rewrite HA1, HA2. cbv zeta.
    rewrite Hdrop. fold s a. rewrite HA3. fold e pk. by rewrite Hstore.
  - rewrite Hrun, Hlayout. by destruct (hash _).
  - by rewrite Hsec.
  - unfold finish_raw_secret, NEWHOPE_finish_computation. rewrite Hfa.
    unfold acceptmsg. rewrite drop_app_length' by done.
    rewrite decode_of_encode; [done | done | by rewrite Hlen | done].
  - by apply noise_algebra.
Qed.

End HandshakeFacts.

(** ** The instantiation and the run *)

Lemma bytes_ok_spec (l : list Z) : bytes_ok l = true -> is_bytes l.
Proof.
  unfold bytes_ok, is_bytes. induction l as [|z l IH]; simpl; intros H.
  - constructor.
  - apply andb_true_iff in H as [Hz Hl]. constructor; [|by apply IH].
    unfold is_uint8. lia.
Qed.

Lemma range_ok_spec (l : list Z) :
  forallb (fun x => (0 <=? x) && (x <? 4)) l = true -> Forall (fun x => 0 <= x < 4) l.
Proof.
  induction l as [|z l IH]; simpl; intros H.
  - constructor.
  - apply andb_true_iff in H as [Hz Hl]. constructor; [lia | by apply IH].
Qed.

Lemma hint_ok_spec (h : NEWHOPE_POLY) : hint_ok h = true -> is_hint h.
Proof.
  unfold hint_ok, is_hint, poly_wf. rewrite andb_true_iff, Nat.eqb_eq.
  intros [Hlen H]. split; [done | by apply range_ok_spec].
Qed.

Lemma zip_with_comm (f : Z -> Z -> Z) (l k : list Z) :
  (forall x y, f x y = f y x) -> zip_with f l k = zip_with f k l.
Proof.
  intros Hf. revert k. induction l as [|x l IH]; intros [|y k]; simpl; [done..|].
  by rewrite Hf, IH.
Qed.

Lemma Ref_add_comm (p q : NEWHOPE_POLY) :
  Ref.newhope_poly_add p q = Ref.newhope_poly_add q p.
Proof.
  unfold Ref.newhope_poly_add, Ref.poly_map2. f_equal.
  apply zip_with_comm. intros x y. by rewrite Z.add_comm.
Qed.

Lemma Ref_pointwise_comm (p q : NEWHOPE_POLY) :
  Ref.newhope_poly_pointwise p q = Ref.newhope_poly_pointwise q p.
Proof.
  unfold Ref.newhope_poly_pointwise, Ref.poly_map2. f_equal.
  apply zip_with_comm. intros x y. by rewrite Z.mul_comm.
Qed.

Lemma Ref_digest_length (ctx : Ref.SHA256_CTX) (d : list Z) :
  Ref.SHA256_Final ctx = Some d -> length d = SHA256_DIGEST_LENGTH.
Proof.
  unfold Ref.SHA256_Final. intros [= <-]. reflexivity.
Qed.

Lemma triple_eta {A B C : Type} (x : A * B * C) : x = (fst (fst x), snd (fst x), snd x).
Proof. by destruct x as [[? ?] ?]. Qed.

Lemma pair_eta {A B : Type} (x : A * B) : x = (fst x, snd x).
Proof. by destruct x. Qed.

(** The run behind C1: the raw secrets agree, and both sides end with
    [Run.session_key]. *)
Lemma handshake_agreement_witness :
  accept_ret (fst Run.accept_out) = 1 /\
  finish_ret (fst Run.finish_out) = 1 /\
  accept_key (fst Run.accept_out) = Run.session_key /\
  finish_key (fst Run.finish_out) = Run.session_key /\
  length Run.session_key = 32%nat.
Proof.
  refine (proj2 (proj2 (handshake_agreement
            Ref.RAND_bytes Ref.newhope_poly_getnoise Ref.newhope_poly_ntt
            Ref.newhope_poly_invntt Ref.newhope_poly_pointwise Ref.newhope_poly_add
            Ref.newhope_poly_uniform Ref.newhope_poly_tobytes
            Ref.NEWHOPE_POLY_frombytes Ref.newhope_helprec Ref.newhope_reconcile
            Ref.SHA256_Init Ref.SHA256_Update Ref.SHA256_Final
            Run.offer_buffer Run.key_buffer Run.accept_buffer Run.key_buffer
            Run.stale_poly 0%nat (snd Run.offer_out) (snd Run.finish_out)
            5000%nat (snd Run.accept_out) Run.offermsg Run.sk
            (fst Run.accept_out) (fst Run.finish_out)
            Ref_digest_length _ _ _ _ _ _)) Run.session_key _).
  - reflexivity.
  - reflexivity.
  - apply triple_eta.
  - apply pair_eta.
  - apply pair_eta.
  - vm_compute. reflexivity.
  - vm_compute. reflexivity.
Defined.

(** C2 on the run: an offer message announced one byte short and an accept
    message announced one byte long are both refused. *)
Lemma length_rejection_witness :
  accept_ret (fst (Run.accept Run.key_buffer Run.accept_buffer Run.offermsg
                     1823%nat 5000%nat)) = 0 /\
  finish_ret (fst (Run.finish Run.stale_poly Run.key_buffer Run.sk Run.acceptmsg
                     2049%nat 2080%nat)) = 0.
Proof.
  split.
  - refine (proj1 (length_rejection
              Ref.RAND_bytes Ref.newhope_poly_getnoise Ref.newhope_poly_ntt
              Ref.newhope_poly_invntt Ref.newhope_poly_pointwise Ref.newhope_poly_add
              Ref.newhope_poly_uniform Ref.newhope_poly_tobytes
              Ref.NEWHOPE_POLY_frombytes Ref.newhope_helprec Ref.newhope_reconcile
              Ref.SHA256_Init Ref.SHA256_Update Ref.SHA256_Final
              Run.key_buffer Run.accept_buffer Run.offermsg Run.stale_poly Run.sk
              1823%nat 5000%nat) _).
    unfold NEWHOPE_OFFERMSG_LENGTH. lia.
  - refine (proj1 (proj2 (length_rejection
              Ref.RAND_bytes Ref.newhope_poly_getnoise Ref.newhope_poly_ntt
              Ref.newhope_poly_invntt Ref.newhope_poly_pointwise Ref.newhope_poly_add
              Ref.newhope_poly_uniform Ref.newhope_poly_tobytes
              Ref.NEWHOPE_POLY_frombytes Ref.newhope_helprec Ref.newhope_reconcile
              Ref.SHA256_Init Ref.SHA256_Update Ref.SHA256_Final
              Run.key_buffer Run.acceptmsg Run.offermsg Run.stale_poly Run.sk
              2049%nat 2080%nat)) _).
    unfold NEWHOPE_ACCEPTMSG_LENGTH. lia.
Defined.

(** C8 on the run: the refused calls leave the buffers and the position in
    the byte stream as they were. *)
Lemma wrong_length_no_effect_witness :
  Run.accept Run.key_buffer Run.accept_buffer Run.offermsg 1823%nat 5000%nat =
    (mkAccept 0 Run.key_buffer Run.accept_buffer, 5000%nat) /\
  Run.finish Run.stale_poly Run.key_buffer Run.sk Run.acceptmsg 2049%nat 2080%nat =
    (mkFinish 0 Run.key_buffer, 2080%nat).
Proof.
  split.
  - refine (proj1 (wrong_length_no_effect
              Ref.RAND_bytes Ref.newhope_poly_getnoise Ref.newhope_poly_ntt
              Ref.newhope_poly_invntt Ref.newhope_poly_pointwise Ref.newhope_poly_add
              Ref.newhope_poly_uniform Ref.newhope_poly_tobytes
              Ref.NEWHOPE_POLY_frombytes Ref.newhope_helprec Ref.newhope_reconcile
              Ref.SHA256_Init Ref.SHA256_Update Ref.SHA256_Final
              Run.key_buffer Run.accept_buffer Run.offermsg Run.stale_poly Run.sk
              1823%nat 5000%nat) _).
    unfold NEWHOPE_OFFERMSG_LENGTH. lia.
  - refine (proj2 (wrong_length_no_effect
              Ref.RAND_bytes Ref.newhope_poly_getnoise Ref.newhope_poly_ntt
              Ref.newhope_poly_invntt Ref.newhope_poly_pointwise Ref.newhope_poly_add
              Ref.newhope_poly_uniform Ref.newhope_poly_tobytes
              Ref.NEWHOPE_POLY_frombytes Ref.newhope_helprec Ref.newhope_reconcile
              Ref.SHA256_Init Ref.SHA256_Update Ref.SHA256_Final
              Run.key_buffer Run.acceptmsg Run.offermsg Run.stale_poly Run.sk
              2049%nat 2080%nat) _).
    unfold NEWHOPE_ACCEPTMSG_LENGTH. lia.
Defined.

(** C4 on the run: the initiator finishes with [Run.session_key]. *)
Lemma finish_spec_witness :
  is_hint (decode_rec (drop NEWHOPE_POLY_LENGTH Run.acceptmsg) Run.stale_poly) /\
  Run.finish Run.stale_poly Run.key_buffer Run.sk Run.acceptmsg
    NEWHOPE_ACCEPTMSG_LENGTH 2080%nat = (mkFinish 1 Run.session_key, 2080%nat) /\
  length Run.session_key = 32%nat.
Proof.
  refine (finish_spec Ref.newhope_poly_invntt Ref.newhope_poly_pointwise
            Ref.NEWHOPE_POLY_frombytes Ref.newhope_reconcile
            Ref.SHA256_Init Ref.SHA256_Update Ref.SHA256_Final
            Run.stale_poly Run.key_buffer Run.sk Run.acceptmsg 2080%nat
            Run.session_key _ _ _ _ Ref_digest_length _).
  - apply bytes_ok_spec. vm_compute. reflexivity.
  - vm_compute. reflexivity.
  - vm_compute. reflexivity.
  - vm_compute. reflexivity.
  - vm_compute. reflexivity.
Defined.

(** C5 on a hint that uses all four values, packed into a buffer of 0xff
    bytes and unpacked over stale coefficients. *)
Lemma decode_rec_encode_rec_witness :
  decode_rec (encode_rec Run.sample_hint Run.hint_buffer) Run.stale_poly =
  Run.sample_hint.
Proof.
  refine (decode_rec_encode_rec Run.sample_hint Run.hint_buffer Run.stale_poly _ _ _).
  - apply hint_ok_spec. vm_compute. reflexivity.
  - apply Nat.leb_le. vm_compute. reflexivity.
  - vm_compute. reflexivity.
Defined.

(** C9 on a buffer of 0xff bytes. *)
Lemma decode_rec_is_hint_witness :
  is_hint (decode_rec Run.hint_buffer Run.stale_poly).
Proof.
  refine (decode_rec_is_hint Run.hint_buffer Run.stale_poly _ _ _).
  - apply bytes_ok_spec. vm_compute. reflexivity.
  - vm_compute. reflexivity.
  - vm_compute. reflexivity.
Defined.

(** C6 at byte 5 of the packed sample hint, which carries the values 0, 1, 2
    and 3, and at byte 5 of a buffer of 0xff bytes. *)
Lemma hint_packing_layout_witness :
  length (take (PARAM_N / 4) (encode_rec Run.sample_hint Run.hint_buffer)) =
    (PARAM_N / 4)%nat /\
  drop (PARAM_N / 4) (encode_rec Run.sample_hint Run.hint_buffer) =
    drop (PARAM_N / 4) Run.hint_buffer /\
  (exists b, encode_rec Run.sample_hint Run.hint_buffer !! 5%nat = Some b /\
     is_uint8 b /\
     bit_field b 0 2 = coeff Run.sample_hint (4 * 5) /\
     bit_field b 2 2 = coeff Run.sample_hint (4 * 5 + 1) /\
     bit_field b 4 2 = coeff Run.sample_hint (4 * 5 + 2) /\
     bit_field b 6 2 = coeff Run.sample_hint (4 * 5 + 3)) /\
  coeff (decode_rec Run.hint_buffer Run.stale_poly) (4 * 5) =
    bit_field (byte_at Run.hint_buffer 5) 0 2 /\
  coeff (decode_rec Run.hint_buffer Run.stale_poly) (4 * 5 + 1) =
    bit_field (byte_at Run.hint_buffer 5) 2 2 /\
  coeff (decode_rec Run.hint_buffer Run.stale_poly) (4 * 5 + 2) =
    bit_field (byte_at Run.hint_buffer 5) 4 2 /\
  coeff (decode_rec Run.hint_buffer Run.stale_poly) (4 * 5 + 3) =
    bit_field (byte_at Run.hint_buffer 5) 6 2.
Proof.
  refine (hint_packing_layout Run.sample_hint Run.hint_buffer Run.hint_buffer
            Run.stale_poly 5%nat _ _ _ _ _ _).
  - apply hint_ok_spec. vm_compute. reflexivity.
  - apply Nat.leb_le. vm_compute. reflexivity.
  - apply bytes_ok_spec. vm_compute. reflexivity.
  - vm_compute. reflexivity.
  - vm_compute. reflexivity.
  - apply Nat.ltb_lt. vm_compute. reflexivity.
Defined.

(** C10 on the run: the initiator finishes a second time from another
    position of the byte stream, with another key buffer and other stale
    coefficients, and gets the same key. *)
Lemma finish_deterministic_witness :
  snd (Run.finish Run.stale_poly Run.key_buffer Run.sk Run.acceptmsg
         NEWHOPE_ACCEPTMSG_LENGTH 2080%nat) = 2080%nat /\
  snd (Run.finish Run.sample_hint Run.other_key_buffer Run.sk Run.acceptmsg
         NEWHOPE_ACCEPTMSG_LENGTH 77%nat) = 77%nat /\
  finish_key (fst (Run.finish Run.stale_poly Run.key_buffer Run.sk Run.acceptmsg
                     NEWHOPE_ACCEPTMSG_LENGTH 2080%nat)) =
  finish_key (fst (Run.finish Run.sample_hint Run.other_key_buffer Run.sk Run.acceptmsg
                     NEWHOPE_ACCEPTMSG_LENGTH 77%nat)).
Proof.
  pose proof (finish_deterministic Ref.newhope_poly_invntt Ref.newhope_poly_pointwise
                Ref.NEWHOPE_POLY_frombytes Ref.newhope_reconcile
                Ref.SHA256_Init Ref.SHA256_Update Ref.SHA256_Final
                Run.stale_poly Run.sample_hint Run.key_buffer Run.other_key_buffer
                Run.sk Run.acceptmsg NEWHOPE_ACCEPTMSG_LENGTH 2080%nat 77%nat) as H.
  refine ((fun H' => conj (proj1 H') (conj (proj1 (proj2 H'))
                       (proj2 (proj2 (proj2 H')) _))) (H _ _ _ _ Ref_digest_length)).
  - vm_compute. reflexivity.
  - vm_compute. reflexivity.
  - vm_compute. reflexivity.
  - vm_compute. reflexivity.
  - vm_compute. reflexivity.
Defined.

(** C7 on the run: the offer message is the packed [pk] followed by the seed
    drawn at position 1024 of the byte stream. *)
Lemma offer_message_layout_witness :
  Run.offer Run.offer_buffer 0%nat =
    (Ref.newhope_poly_tobytes Run.pk ++ Run.seed,
     Ref.newhope_poly_ntt Run.s0, 2080%nat) /\
  take NEWHOPE_POLY_LENGTH (Ref.newhope_poly_tobytes Run.pk ++ Run.seed) =
    Ref.newhope_poly_tobytes Run.pk /\
  drop NEWHOPE_POLY_LENGTH (Ref.newhope_poly_tobytes Run.pk ++ Run.seed) = Run.seed /\
  Run.pk = Ref.newhope_poly_add
             (Ref.newhope_poly_pointwise (Ref.newhope_poly_uniform Run.seed)
                (Ref.newhope_poly_ntt Run.s0))
             (Ref.newhope_poly_ntt Run.e0).
Proof.
  refine ((fun H => conj (proj1 H) (conj (proj1 (proj2 H)) (conj (proj1 (proj2 (proj2 H)))
             (proj2 (proj2 (proj2 (proj2 (proj2 H)))) Ref_add_comm Ref_pointwise_comm))))
          (offer_message_layout
             Ref.RAND_bytes Ref.newhope_poly_getnoise Ref.newhope_poly_ntt
             Ref.newhope_poly_invntt Ref.newhope_poly_pointwise Ref.newhope_poly_add
             Ref.newhope_poly_uniform Ref.newhope_poly_tobytes
             Ref.NEWHOPE_POLY_frombytes Ref.newhope_helprec Ref.newhope_reconcile
             Ref.SHA256_Init Ref.SHA256_Update Ref.SHA256_Final
             Run.offer_buffer 0%nat 1024%nat 1056%nat 2080%nat Run.s0 Run.seed Run.e0
             Run.key_buffer Run.accept_buffer _ _ _ _ _ _)).
  - reflexivity.
  - reflexivity.
  - reflexivity.
  - vm_compute. reflexivity.
  - vm_compute. reflexivity.
  - vm_compute. reflexivity.
Defined.

(** ** The ring of the instantiation *)

Lemma zip_with_nil_r (f : Z -> Z -> Z) (l : list Z) : zip_with f l [] = [].
Proof. by destruct l. Qed.

Lemma zip_with_assoc (f : Z -> Z -> Z) (l k m : list Z) :
  (forall x y z, f x (f y z) = f (f x y) z) ->
  zip_with f l (zip_with f k m) = zip_with f (zip_with f l k) m.
Proof.
  intros Hf. revert k m.
  induction l as [|x l IH]; intros [|y k] [|z m]; simpl; [done..|].
  by rewrite Hf, IH.
Qed.

Lemma zip_with_distr (mul add : Z -> Z -> Z) (l k n : list Z) :
  (forall x y z, mul (add x y) z = add (mul x z) (mul y z)) ->
  zip_with mul (zip_with add l k) n =
  zip_with add (zip_with mul l n) (zip_with mul k n).
Proof.
  intros Hd. revert k n.
  induction l as [|x l IH]; intros [|y k] [|z n]; simpl; [done..|].
  by rewrite Hd, IH.
Qed.

Lemma Ref_add_assoc (p q r : NEWHOPE_POLY) :
  Ref.newhope_poly_add p (Ref.newhope_poly_add q r) =
  Ref.newhope_poly_add (Ref.newhope_poly_add p q) r.
Proof.
  unfold Ref.newhope_poly_add, Ref.poly_map2. simpl. f_equal.
  apply zip_with_assoc. intros x y z. unfold Ref.PARAM_Q.
  rewrite Z.add_mod_idemp_r, Z.add_mod_idemp_l by done. f_equal. lia.
Qed.

Lemma Ref_pointwise_assoc (p q r : NEWHOPE_POLY) :
  Ref.newhope_poly_pointwise p (Ref.newhope_poly_pointwise q r) =
  Ref.newhope_poly_pointwise (Ref.newhope_poly_pointwise p q) r.
Proof.
  unfold Ref.newhope_poly_pointwise, Ref.poly_map2. simpl. f_equal.
  apply zip_with_assoc. intros x y z. unfold Ref.PARAM_Q.
  rewrite Z.mul_mod_idemp_r, Z.mul_mod_idemp_l by done. f_equal. lia.
Qed.

Lemma Ref_pointwise_add (p q r : NEWHOPE_POLY) :
  Ref.newhope_poly_pointwise (Ref.newhope_poly_add p q) r =
  Ref.newhope_poly_add (Ref.newhope_poly_pointwise p r) (Ref.newhope_poly_pointwise q r).
Proof.
  unfold Ref.newhope_poly_pointwise, Ref.newhope_poly_add, Ref.poly_map2. simpl. f_equal.
  apply zip_with_distr. intros x y z. unfold Ref.PARAM_Q.
  rewrite Z.mul_mod_idemp_l by done. rewrite <- Z.add_mod by done. f_equal. lia.
Qed.

Lemma Ref_invntt_add (p q : NEWHOPE_POLY) :
  Ref.newhope_poly_invntt (Ref.newhope_poly_add p q) =
  Ref.newhope_poly_add (Ref.newhope_poly_invntt p) (Ref.newhope_poly_invntt q).
Proof. reflexivity. Qed.

Lemma Ref_RAND_bytes_length (n g : nat) : length (fst (Ref.RAND_bytes n g)) = n.
Proof. unfold Ref.RAND_bytes. simpl. by rewrite List.length_map, List.length_seq. Qed.

Lemma length_flat_map_const (f : nat -> list Z) (k : nat) (l : list nat) :
  (forall x, length (f x) = k) -> length (flat_map f l) = (length l * k)%nat.
Proof.
  intros Hf. induction l as [|x l IH]; simpl; [done|].
  by rewrite length_app, Hf, IH.
Qed.

Lemma Ref_tobytes_length (p : NEWHOPE_POLY) :
  length (Ref.newhope_poly_tobytes p) = NEWHOPE_POLY_LENGTH.
Proof.
  unfold Ref.newhope_poly_tobytes.
  rewrite (length_flat_map_const _ 7) by done.
  rewrite List.length_seq. reflexivity.
Qed.

Lemma Forall_map_image (P : Z -> Prop) (f : nat -> Z) (l : list nat) :
  (forall x, P (f x)) -> Forall P (map f l).
Proof. intros Hf. induction l as [|x l IH]; simpl; constructor; done. Qed.

Lemma Ref_helprec_is_hint (v : NEWHOPE_POLY) (rand : list Z) :
  is_hint (Ref.newhope_helprec v rand).
Proof.
  unfold Ref.newhope_helprec. split.
  - unfold poly_wf. cbn [coeffs]. by rewrite List.length_map, List.length_seq.
  - cbn [coeffs]. apply Forall_map_image. intros j. apply Z.mod_pos_bound. lia.
Qed.

(** ** The extra properties on the run *)

(** X1 on a buffer that holds every byte value. *)
Lemma encode_rec_decode_rec_witness :
  encode_rec (decode_rec Run.all_bytes Run.stale_poly) Run.hint_buffer = Run.all_bytes.
Proof.
  refine (encode_rec_decode_rec Run.all_bytes Run.hint_buffer Run.stale_poly _ _ _ _).
  - apply bytes_ok_spec. vm_compute. reflexivity.
  - vm_compute. reflexivity.
  - vm_compute. reflexivity.
  - vm_compute. reflexivity.
Defined.


(** X3 from stale coefficients and from the sample hint, into a buffer of
    0xff bytes and into the tail of the zeroed accept buffer. *)
Lemma codec_overwrites_witness :
  decode_rec Run.hint_buffer Run.stale_poly =
    decode_rec Run.hint_buffer Run.sample_hint /\
  encode_rec Run.sample_hint Run.hint_buffer =
    encode_rec Run.sample_hint (drop NEWHOPE_POLY_LENGTH Run.accept_buffer).
Proof.
  refine (codec_overwrites Run.sample_hint Run.hint_buffer Run.hint_buffer
            (drop NEWHOPE_POLY_LENGTH Run.accept_buffer)
            Run.stale_poly Run.sample_hint _ _ _ _).
  - vm_compute. reflexivity.
  - vm_compute. reflexivity.
  - vm_compute. reflexivity.
  - vm_compute. reflexivity.
Defined.

(** X4 on the run: the responder's draws start at 5000 and end at 8104. *)
Lemma accept_spec_witness :
  Run.accept Run.key_buffer Run.accept_buffer Run.offermsg
    NEWHOPE_OFFERMSG_LENGTH 5000%nat =
    (mkAccept 1 Run.session_key
       (Ref.newhope_poly_tobytes
          (Ref.newhope_poly_add
             (Ref.newhope_poly_pointwise
                (Ref.newhope_poly_uniform (drop NEWHOPE_POLY_LENGTH Run.offermsg))
                (Ref.newhope_poly_ntt Run.sp0))
             (Ref.newhope_poly_ntt Run.ep0)) ++
        encode_rec
          (Ref.newhope_helprec
             (Ref.newhope_poly_add
                (Ref.newhope_poly_invntt
                   (Ref.newhope_poly_pointwise
                      (Ref.NEWHOPE_POLY_frombytes Run.offermsg)
                      (Ref.newhope_poly_ntt Run.sp0)))
                Run.epp)
             Run.rand)
          (drop NEWHOPE_POLY_LENGTH Run.accept_buffer)),
     8104%nat).
Proof.
  refine (proj1 (accept_spec
            Ref.RAND_bytes Ref.newhope_poly_getnoise Ref.newhope_poly_ntt
            Ref.newhope_poly_invntt Ref.newhope_poly_pointwise Ref.newhope_poly_add
            Ref.newhope_poly_uniform Ref.newhope_poly_tobytes
            Ref.NEWHOPE_POLY_frombytes Ref.newhope_helprec Ref.newhope_reconcile
            Ref.SHA256_Init Ref.SHA256_Update Ref.SHA256_Final
            Run.key_buffer Run.accept_buffer Run.offermsg
            5000%nat 6024%nat 7048%nat 7080%nat 8104%nat
            Run.sp0 Run.epp Run.rand Run.ep0 Run.session_key
            _ _ _ _ _ _ _ Ref_digest_length _)).
  - reflexivity.
  - reflexivity.
  - reflexivity.
  - reflexivity.
  - reflexivity.
  - apply Ref_tobytes_length.
  - reflexivity.
  - vm_compute. reflexivity.
Defined.

(** X5 on the run with the failing hash: 0 is returned, the message is
    written and the stream has moved to 8104. *)
Lemma accept_hash_failure_witness :
  accept_ret (fst (Run.accept_failing Run.key_buffer Run.accept_buffer Run.offermsg
                     NEWHOPE_OFFERMSG_LENGTH 5000%nat)) = 0 /\
  accept_msg (fst (Run.accept_failing Run.key_buffer Run.accept_buffer Run.offermsg
                     NEWHOPE_OFFERMSG_LENGTH 5000%nat)) =
    Ref.newhope_poly_tobytes
      (Ref.newhope_poly_add
         (Ref.newhope_poly_pointwise
            (Ref.newhope_poly_uniform (drop NEWHOPE_POLY_LENGTH Run.offermsg))
            (Ref.newhope_poly_ntt Run.sp0))
         (Ref.newhope_poly_ntt Run.ep0)) ++
    encode_rec
      (Ref.newhope_helprec
         (Ref.newhope_poly_add
            (Ref.newhope_poly_invntt
               (Ref.newhope_poly_pointwise
                  (Ref.NEWHOPE_POLY_frombytes Run.offermsg)
                  (Ref.newhope_poly_ntt Run.sp0)))
            Run.epp)
         Run.rand)
      (drop NEWHOPE_POLY_LENGTH Run.accept_buffer) /\
  snd (Run.accept_failing Run.key_buffer Run.accept_buffer Run.offermsg
         NEWHOPE_OFFERMSG_LENGTH 5000%nat) = 8104%nat.
Proof.
  refine (accept_hash_failure
            Ref.RAND_bytes Ref.newhope_poly_getnoise Ref.newhope_poly_ntt
            Ref.newhope_poly_invntt Ref.newhope_poly_pointwise Ref.newhope_poly_add
            Ref.newhope_poly_uniform Ref.newhope_poly_tobytes
            Ref.NEWHOPE_POLY_frombytes Ref.newhope_helprec Ref.newhope_reconcile
            Ref.SHA256_Init_failing Ref.SHA256_Update Ref.SHA256_Final
            Run.key_buffer Run.accept_buffer Run.offermsg
            5000%nat 6024%nat 7048%nat 7080%nat 8104%nat
            Run.sp0 Run.epp Run.rand Run.ep0
            _ _ _ _ _ _ _).
  - reflexivity.
  - reflexivity.
  - reflexivity.
  - reflexivity.
  - reflexivity.
  - apply Ref_tobytes_length.
  - reflexivity.
Defined.

(** X6 on the run's [bp] and the sample hint. *)
Lemma finish_recovers_hint_witness :
  decode_rec
    (drop NEWHOPE_POLY_LENGTH
       (Ref.newhope_poly_tobytes Run.bp ++ encode_rec Run.sample_hint Run.hint_buffer))
    Run.stale_poly = Run.sample_hint /\
  Run.finish_secret Run.stale_poly (Ref.newhope_poly_ntt Run.s0)
    (Ref.newhope_poly_tobytes Run.bp ++ encode_rec Run.sample_hint Run.hint_buffer) =
    Ref.newhope_reconcile
      (Ref.newhope_poly_invntt
         (Ref.newhope_poly_pointwise (Ref.newhope_poly_ntt Run.s0)
            (Ref.NEWHOPE_POLY_frombytes
               (Ref.newhope_poly_tobytes Run.bp ++
                encode_rec Run.sample_hint Run.hint_buffer))))
      Run.sample_hint.
Proof.
  refine ((fun H => conj (proj1 H) (proj1 (proj2 H)))
            (finish_recovers_hint
               Ref.newhope_poly_invntt Ref.newhope_poly_pointwise
               Ref.newhope_poly_tobytes Ref.NEWHOPE_POLY_frombytes Ref.newhope_reconcile
               Run.stale_poly (Ref.newhope_poly_ntt Run.s0) Run.bp Run.sample_hint
               Run.hint_buffer _ _ _ _)).
  - apply hint_ok_spec. vm_compute. reflexivity.
  - reflexivity.
  - reflexivity.
  - apply Ref_tobytes_length.
Defined.

(** X7 on the run, from zeroed buffers and from buffers with other
    contents. *)
Lemma no_stale_bytes_witness :
  Run.offer Run.offer_buffer 0%nat = Run.offer Run.other_offer_buffer 0%nat /\
  accept_msg (fst (Run.accept Run.key_buffer Run.accept_buffer Run.offermsg
                     NEWHOPE_OFFERMSG_LENGTH 5000%nat)) =
  accept_msg (fst (Run.accept Run.other_key_buffer Run.other_accept_buffer Run.offermsg
                     NEWHOPE_OFFERMSG_LENGTH 5000%nat)) /\
  accept_key (fst (Run.accept Run.key_buffer Run.accept_buffer Run.offermsg
                     NEWHOPE_OFFERMSG_LENGTH 5000%nat)) =
  accept_key (fst (Run.accept Run.other_key_buffer Run.other_accept_buffer Run.offermsg
                     NEWHOPE_OFFERMSG_LENGTH 5000%nat)).
Proof.
  refine ((fun H => conj (proj1 H) (conj (proj1 (proj2 H))
                      (proj2 (proj2 (proj2 (proj2 H))) _)))
            (no_stale_bytes
               Ref.RAND_bytes Ref.newhope_poly_getnoise Ref.newhope_poly_ntt
               Ref.newhope_poly_invntt Ref.newhope_poly_pointwise Ref.newhope_poly_add
               Ref.newhope_poly_uniform Ref.newhope_poly_tobytes
               Ref.NEWHOPE_POLY_frombytes Ref.newhope_helprec Ref.newhope_reconcile
               Ref.SHA256_Init Ref.SHA256_Update Ref.SHA256_Final
               Run.offer_buffer Run.other_offer_buffer Run.key_buffer Run.other_key_buffer
               Run.accept_buffer Run.other_accept_buffer Run.offermsg 0%nat 5000%nat
               Ref_RAND_bytes_length Ref_tobytes_length Ref_digest_length
               _ _ _ _ _ _)).
  - vm_compute. reflexivity.
  - vm_compute. reflexivity.
  - vm_compute. reflexivity.
  - vm_compute. reflexivity.
  - vm_compute. reflexivity.
  - vm_compute. reflexivity.
  - vm_compute. reflexivity.
Defined.

(** X8 on a run with the second responder: the two values that are
    reconciled, and the noise between them. *)
Lemma handshake_noise_identity_witness :
  fst (Run.accept_secret (Ref.newhope_poly_tobytes Run.pk ++ Run.seed) 2080%nat) =
    Ref.newhope_reconcile Run.v1 Run.hint1 /\
  Run.finish_secret Run.stale_poly (Ref.newhope_poly_ntt Run.s0)
    (Ref.newhope_poly_tobytes Run.bp1 ++
     encode_rec Run.hint1 (drop NEWHOPE_POLY_LENGTH Run.accept_buffer)) =
    Ref.newhope_reconcile Run.v1' Run.hint1 /\
  Ref.newhope_poly_add Run.v1
    (Ref.newhope_poly_invntt
       (Ref.newhope_poly_pointwise (Ref.newhope_poly_ntt Run.s0)
          (Ref.newhope_poly_ntt Run.ep1))) =
  Ref.newhope_poly_add
    (Ref.newhope_poly_add Run.v1'
       (Ref.newhope_poly_invntt
          (Ref.newhope_poly_pointwise (Ref.newhope_poly_ntt Run.e0)
             (Ref.newhope_poly_ntt Run.sp1))))
    Run.epp1.
Proof.
  refine (proj2 (proj2 (handshake_noise_identity
            Ref.RAND_bytes Ref.newhope_poly_getnoise Ref.newhope_poly_ntt
            Ref.newhope_poly_invntt Ref.newhope_poly_pointwise Ref.newhope_poly_add
            Ref.newhope_poly_uniform Ref.newhope_poly_tobytes
            Ref.NEWHOPE_POLY_frombytes Ref.newhope_helprec Ref.newhope_reconcile
            Ref.SHA256_Init Ref.SHA256_Update Ref.SHA256_Final
            Run.offer_buffer Run.key_buffer Run.accept_buffer Run.stale_poly
            0%nat 1024%nat 1056%nat 2080%nat
            2080%nat 3104%nat 4128%nat 4160%nat 5184%nat
            Run.s0 Run.seed Run.e0 Run.sp1 Run.epp1 Run.rand1 Run.ep1
            Ref_add_comm Ref_add_assoc Ref_pointwise_comm Ref_pointwise_assoc
            Ref_pointwise_add Ref_invntt_add
            _ _ _ _ _ _ _ _ _ _ _ _ _ _ _ _))).
  - reflexivity.
  - reflexivity.
  - reflexivity.
  - reflexivity.
  - reflexivity.
  - reflexivity.
  - reflexivity.
  - reflexivity.
  - reflexivity.
  - apply Ref_tobytes_length.
  - reflexivity.
  - apply Ref_tobytes_length.
  - vm_compute. reflexivity.
  - vm_compute. reflexivity.
  - apply Ref_helprec_is_hint.
  - reflexivity.
Defined.
